(** * Quick Notes API: the notes service over its JSON file

    A shallow embedding of [src/notes/notes.repository.ts]
    (NotesRepository), [notes.service.ts] (NotesService) and
    [notes.controller.ts] (NotesController) of the quick-notes-api
    repository, and the properties of its five operations.

    JavaScript values are embedded as the dynamically typed universe
    [jsval]: the TypeScript annotations ([Note], [Note[]]) are erased at run
    time and [JSON.parse] returns whatever the file holds, so the typed view
    is a predicate on values, not a type of the model.  Objects are finite
    maps from property names to values (property order is not observed by
    any operation of the service). *)

From stdpp Require Import gmap strings list fin_maps pretty.
From Stdlib Require Import ZArith Ascii.

#[local] Set Warnings "-register-all".
#[local] Open Scope Z_scope.

(** ** JavaScript values *)

Inductive jsval : Type :=
  | JUndefined
  | JNull
  | JBool (b : bool)
  | JNum (n : Z)
  | JStr (s : string)
  | JDate (t : Z)       (* a Date object, by its time value: ms since the epoch *)
  | JArr (l : list jsval)
  | JObj (o : gmap string jsval).

Definition is_object (v : jsval) : bool :=
  match v with JObj _ => true | _ => false end.

(** JavaScript truthiness, as used by [x || y] and [!x]. *)
Definition truthy (v : jsval) : bool :=
  match v with
  | JUndefined | JNull => false
  | JBool b => b
  | JNum n => negb (n =? 0)
  | JStr s => negb (String.eqb s "")
  | JDate _ | JArr _ | JObj _ => true
  end.

(** [v === s] for a string [s]: no coercion, so only a string value can be
    equal to it. *)
Definition strict_eq_string (v : jsval) (s : string) : bool :=
  match v with JStr s' => String.eqb s' s | _ => false end.

(** Nesting depth, the measure for induction on values. *)
Fixpoint depth (v : jsval) : nat :=
  match v with
  | JArr l => S (foldr (fun x acc => Nat.max (depth x) acc) O l)
  | JObj o => S (map_fold (fun _ x acc => Nat.max (depth x) acc) O o)
  | _ => O
  end.

(** ** Date.prototype.toISOString *)

Module ISO.

Definition digit (n : Z) : ascii := ascii_of_nat (48 + Z.to_nat (n mod 10)).

(** The [w] low decimal digits of [n], most significant first. *)
Fixpoint digits (w : nat) (n : Z) : string :=
  match w with
  | O => ""
  | S w' => digits w' (n / 10) +:+ String (digit n) ""
  end.

(** Days since 1970-01-01 to a proleptic Gregorian (year, month, day). *)
Definition civil_from_days (days : Z) : Z * Z * Z :=
  let z := days + 719468 in
  let era := z / 146097 in
  let doe := z mod 146097 in
  let yoe := (doe - doe / 1460 + doe / 36524 - doe / 146096) / 365 in
  let doy := doe - (365 * yoe + yoe / 4 - yoe / 100) in
  let mp := (5 * doy + 2) / 153 in
  let d := doy - (153 * mp + 2) / 5 + 1 in
  let m := if mp <? 10 then mp + 3 else mp - 9 in
  let y := yoe + era * 400 + (if m <=? 2 then 1 else 0) in
  (y, m, d).

(** The year of the era and the day of the year in [civil_from_days],
    as functions of the day of the era. *)
Definition yoe_of (doe : Z) : Z :=
  (doe - doe / 1460 + doe / 36524 - doe / 146096) / 365.

Definition doy_of (doe : Z) : Z :=
  let yoe := yoe_of doe in doe - (365 * yoe + yoe / 4 - yoe / 100).

(** Years 0000..9999 take four digits, the others a sign and six. *)
Definition year (y : Z) : string :=
  if (0 <=? y) && (y <=? 9999) then digits 4 y
  else if y <? 0 then "-" +:+ digits 6 (- y)
  else "+" +:+ digits 6 y.

Definition format (y m d h mi s ms : Z) : string :=
  year y +:+ "-" +:+ digits 2 m +:+ "-" +:+ digits 2 d +:+ "T" +:+
  digits 2 h +:+ ":" +:+ digits 2 mi +:+ ":" +:+
  digits 2 s +:+ "." +:+ digits 3 ms +:+ "Z".

Definition toISOString (t : Z) : string :=
  let '(y, m, d) := civil_from_days (t / 86400000) in
  let ms := t mod 86400000 in
  format y m d (ms / 3600000) (ms / 60000 mod 60) (ms / 1000 mod 60) (ms mod 1000).

(** The time values of ECMAScript: at most 8.64e15 ms from the epoch.
    [new Date()] yields one of them. *)
Definition valid_time (t : Z) : Prop :=
  -8640000000000000 <= t <= 8640000000000000.

End ISO.

(** ** JSON.stringify followed by JSON.parse

    The file holds text; the model keeps the value that the text denotes.
    [toJSON v] is the value denoted by [JSON.stringify(v)], that is
    [JSON.parse(JSON.stringify(v))]: [None] when [JSON.stringify] returns
    [undefined].  A Date becomes its ISO string, an [undefined] array
    element becomes [null], an [undefined] property is dropped. *)
Fixpoint toJSON (v : jsval) : option jsval :=
  match v with
  | JUndefined => None
  | JNull | JBool _ | JNum _ | JStr _ => Some v
  | JDate t => Some (JStr (ISO.toISOString t))
  | JArr l => Some (JArr (map (fun x => default JNull (toJSON x)) l))
  | JObj o => Some (JObj (omap toJSON o))
  end.

(** The values a JSON text can denote are the fixed points of [toJSON]. *)
Definition json (v : jsval) : Prop := toJSON v = Some v.

(** ** Exceptions

    What reaches the caller of the service: nothing is caught in the
    repository or in the service. *)

Inductive errno : Type := ENOENT | EACCES | EISDIR | EIO | ENOSPC | EROFS.

Inductive exn : Type :=
  | NotFoundException (message : string)   (* thrown by the service *)
  | SyntaxError                            (* thrown by JSON.parse *)
  | TypeError                              (* thrown by the JavaScript runtime *)
  | SystemError (code : errno).            (* thrown by fs: readFile, writeFile *)

Inductive result (A : Type) : Type :=
  | Ok (a : A)
  | Err (e : exn).
Arguments Ok {A} a.
Arguments Err {A} e.

#[global] Instance result_ret : MRet result := fun _ a => Ok a.
#[global] Instance result_bind : MBind result := fun _ _ f m =>
  match m with Ok a => f a | Err e => Err e end.

(** ** Property access and object spread *)

(** [v[k]] for a name [k] that no built-in prototype defines (the service
    reads [id] and [tags] only): reading a property of [null] or
    [undefined] throws, a primitive or an array has no such property. *)
Definition get (v : jsval) (k : string) : result jsval :=
  match v with
  | JUndefined | JNull => Err TypeError
  | JObj o => Ok (default JUndefined (o !! k))
  | _ => Ok JUndefined
  end.

(** The own enumerable properties copied by [{...v}]. *)
Definition spread (v : jsval) : gmap string jsval :=
  match v with
  | JObj o => o
  | JArr l => list_to_map (imap (fun i x => (pretty i, x)) l)
  | JStr s =>
      list_to_map (imap (fun i c => (pretty i, JStr (String c ""))) (String.list_ascii_of_string s))
  | _ => ∅
  end.

(** ** Array methods *)

(** A method of [Array.prototype] called on a value that is not an array is
    [undefined], and calling it throws. *)
Definition as_array (v : jsval) : result (list jsval) :=
  match v with JArr l => Ok l | _ => Err TypeError end.

(** [l.find(p)]: the first element on which [p] holds, else [undefined]. *)
Fixpoint find (p : jsval -> result bool) (l : list jsval) : result jsval :=
  match l with
  | [] => Ok JUndefined
  | n :: l' => b ← p n; if b : bool then Ok n else find p l'
  end.

(** [l.findIndex(p)]: the index of that element, else [-1]. *)
Fixpoint findIndex (p : jsval -> result bool) (l : list jsval) : result Z :=
  match l with
  | [] => Ok (-1)
  | n :: l' =>
      b ← p n;
      if b : bool then Ok 0
      else i ← findIndex p l'; Ok (if i =? -1 then -1 else i + 1)
  end.

(** ** The file and the effects on it *)

(** What [data/notes.json] holds: text that [JSON.parse] rejects, or the
    JSON text of a value. *)
Inductive text : Type :=
  | Malformed (raw : string)
  | Wellformed (v : jsval).

Inductive file : Type :=
  | Missing                       (* no such file: readFile fails with ENOENT *)
  | Unreadable (code : errno)     (* the file exists, reading it fails *)
  | Text (c : text).

(** How a write fails.  [writeFile] opens the file with flag ['w'], which
    creates or truncates it, and then writes: when the open fails the file
    is as it was; when the write fails after the open, the file holds what
    reached it until then, [remains]: the empty text or the first bytes of the
    text to write. *)
Inductive failure : Type :=
  | AtOpen (code : errno)
  | AfterOpen (code : errno) (remains : text).

Definition failure_code (f : failure) : errno :=
  match f with AtOpen code | AfterOpen code _ => code end.

(** The world of the process: the file, how the next write fails if it
    does, and the texts written in full so far (latest first). *)
Record World : Type := mkWorld {
  disk : file;
  write_refused : option failure;
  written : list text
}.

(** The world that a failed write leaves. *)
Definition interrupted (f : failure) (w : World) : World :=
  match f with
  | AtOpen _ => w
  | AfterOpen _ remains => mkWorld (Text remains) (write_refused w) (written w)
  end.

Definition IO (A : Type) : Type := World -> result A * World.

#[global] Instance IO_ret : MRet IO := fun _ a w => (Ok a, w).
#[global] Instance IO_bind : MBind IO := fun _ _ f m w =>
  match m w with
  | (Ok a, w') => f a w'
  | (Err e, w') => (Err e, w')
  end.

Definition throw {A} (e : exn) : IO A := fun w => (Err e, w).

Definition lift {A} (r : result A) : IO A := fun w => (r, w).

Definition readFile : IO text := fun w =>
  match disk w with
  | Missing => (Err (SystemError ENOENT), w)
  | Unreadable code => (Err (SystemError code), w)
  | Text c => (Ok c, w)
  end.

Definition writeFile (c : text) : IO unit := fun w =>
  match write_refused w with
  | Some f => (Err (SystemError (failure_code f)), interrupted f w)
  | None => (Ok tt, mkWorld (Text c) None (c :: written w))
  end.

Definition JSON_parse (c : text) : result jsval :=
  match c with
  | Malformed _ => Err SyntaxError
  | Wellformed v => Ok v
  end.

Definition JSON_stringify (v : jsval) : option text := Wellformed <$> toJSON v.

(** ** notes.repository.ts *)

Module NotesRepository.

(** The constructor: [if (!existsSync(filePath)) writeFileSync(filePath, '[]')]
    (the directory is created with the file). *)
Definition ensureDataFileExists : IO unit := fun w =>
  match disk w with
  | Missing => writeFile (Wellformed (JArr [])) w
  | _ => (Ok tt, w)
  end.

Definition readNotes : IO jsval :=
  fileContent ← readFile;
  lift (JSON_parse fileContent).

(** [writeFile] given [undefined] for its data throws a TypeError. *)
Definition writeNotes (notes : jsval) : IO unit :=
  match JSON_stringify notes with
  | Some c => writeFile c
  | None => throw TypeError
  end.

End NotesRepository.

(** ** notes.service.ts *)

Module NotesService.
Import NotesRepository.

Definition dquote : string := String (ascii_of_nat 34) "".

Definition not_found (id : string) : exn :=
  NotFoundException ("Note with ID " +:+ dquote +:+ id +:+ dquote +:+ " not found").

(** The callback [(n) => n.id === id]. *)
Definition by_id (id : string) (n : jsval) : result bool :=
  v ← get n "id"; Ok (strict_eq_string v id).

(** [now] is the value of [new Date()], [uuid] the value of [uuidv4()],
    [createNoteDto] the own properties of the argument object. *)
Definition create (now : Z) (uuid : string) (createNoteDto : gmap string jsval)
    : IO jsval :=
  let tags := default JUndefined (createNoteDto !! "tags") in
  let newNote :=
    JObj (<["updatedAt" := JDate now]>
          (<["createdAt" := JDate now]>
           (<["tags" := if truthy tags then tags else JArr []]>
            (createNoteDto ∪ {["id" := JStr uuid]})))) in
  notes ← readNotes;
  l ← lift (as_array notes);
  let notes := JArr (l ++ [newNote]) in
  _ ← writeNotes notes;
  mret newNote.

Definition findAll : IO jsval := readNotes.

Definition findOne (id : string) : IO jsval :=
  notes ← readNotes;
  l ← lift (as_array notes);
  note ← lift (find (by_id id) l);
  if negb (truthy note) then throw (not_found id)
  else mret note.

Definition update (now : Z) (id : string) (updateNoteDto : gmap string jsval)
    : IO jsval :=
  notes ← readNotes;
  l ← lift (as_array notes);
  noteIndex ← lift (findIndex (by_id id) l);
  if noteIndex =? -1 then throw (not_found id)
  else
    let updatedNote :=
      JObj (<["updatedAt" := JDate now]>
            (updateNoteDto ∪ spread (default JUndefined (l !! Z.to_nat noteIndex)))) in
    let notes := JArr (<[Z.to_nat noteIndex := updatedNote]> l) in
    _ ← writeNotes notes;
    mret updatedNote.

Definition remove (id : string) : IO unit :=
  notes ← readNotes;
  l ← lift (as_array notes);
  noteIndex ← lift (findIndex (by_id id) l);
  if noteIndex =? -1 then throw (not_found id)
  else
    let notes := JArr (delete (Z.to_nat noteIndex) l) in
    writeNotes notes.

End NotesService.

(** ** notes.controller.ts *)

Module NotesController.

(** [@Get() getAllNotes()]: the handler binds no [@Query] parameter, so
    the [search] term of a request [GET /notes?search=...] reaches no
    code of the service. *)
Definition getAllNotes (search : option string) : IO jsval :=
  NotesService.findAll.

Definition getSpecificNote (id : string) : IO jsval := NotesService.findOne id.

End NotesController.

(** ** The request bodies

    [create-note.dto.ts] is not among the sources; [update-note.dto.ts] is
    [PartialType(CreateNoteDto)] and lists the fields. *)

Module CreateNoteDto.

(** Modelled from the spec: the class [CreateNoteDto] of
    [dto/create-note.dto.ts], whose file is missing; the spec gives the
    creation input as [{title, content, tags?}]. *)
Record t : Type := mk {
  title : string;
  content : string;
  tags : option (list string)
}.

Definition object (d : t) : gmap string jsval :=
  let o : gmap string jsval := {[ "title" := JStr (title d); "content" := JStr (content d) ]} in
  match tags d with
  | Some ts => <["tags" := JArr (JStr <$> ts)]> o
  | None => o
  end.

End CreateNoteDto.

Module UpdateNoteDto.

(** Every field of [CreateNoteDto], optional. *)
Record t : Type := mk {
  title : option string;
  content : option string;
  tags : option (list string)
}.

Definition field {A} (k : string) (f : A -> jsval) (x : option A)
    (o : gmap string jsval) : gmap string jsval :=
  match x with Some a => <[k := f a]> o | None => o end.

Definition object (p : t) : gmap string jsval :=
  field "title" JStr (title p)
    (field "content" JStr (content p)
       (field "tags" (fun ts => JArr (JStr <$> ts)) (tags p) ∅)).

End UpdateNoteDto.

(** ** The search of the specification

    The service has no search; this is the filter that the specification
    describes, to compare [findAll] with. *)

Module SpecSearch.

Definition lower_ascii (c : ascii) : ascii :=
  let n := nat_of_ascii c in
  if ((65 <=? n) && (n <=? 90))%nat then ascii_of_nat (n + 32) else c.

Fixpoint toLowerCase (s : string) : string :=
  match s with
  | EmptyString => EmptyString
  | String c s' => String (lower_ascii c) (toLowerCase s')
  end.

(** [includes hay needle]: [needle] occurs in [hay]. *)
Fixpoint includes (hay needle : string) : bool :=
  String.prefix needle hay ||
  match hay with
  | EmptyString => false
  | String _ hay' => includes hay' needle
  end.

Definition text_matches (term : string) (v : jsval) : bool :=
  match v with
  | JStr s => includes (toLowerCase s) (toLowerCase term)
  | _ => false
  end.

Definition field_of (n : jsval) (k : string) : jsval :=
  match n with JObj o => default JUndefined (o !! k) | _ => JUndefined end.

(** A record matches if the term occurs in its title, in its content or
    in one of its tags, whatever the case of the letters. *)
Definition matches (term : string) (n : jsval) : bool :=
  text_matches term (field_of n "title")
  || text_matches term (field_of n "content")
  || match field_of n "tags" with
     | JArr ts => existsb (text_matches term) ts
     | _ => false
     end.

Definition findAll (searchTerm : option string) (notes : list jsval) : list jsval :=
  match searchTerm with
  | None => notes
  | Some term =>
      if String.eqb term "" then notes else List.filter (matches term) notes
  end.

End SpecSearch.

(** ** Stored collections *)

(** [n.id === id] on a record. *)
Definition has_id (id : string) (n : jsval) : bool :=
  match n with
  | JObj o => strict_eq_string (default JUndefined (o !! "id")) id
  | _ => false
  end.

(** The file holds the JSON text of the sequence [notes]. *)
Definition holds (w : World) (notes : list jsval) : Prop :=
  disk w = Text (Wellformed (JArr notes)).

(** A collection: a JSON array whose elements are objects. *)
Definition collection (notes : list jsval) : Prop :=
  json (JArr notes) ∧ Forall (fun n => is_object n = true) notes.

(** The world after a successful write of [notes]. *)
Definition saved (w : World) (notes : list jsval) : World :=
  mkWorld (Text (Wellformed (JArr notes))) None (Wellformed (JArr notes) :: written w).

(** A timestamp value stands for the instant [t]: as a Date object in
    memory, as its ISO string once read back from the file. *)
Definition instant (v : option jsval) (t : Z) : Prop :=
  ISO.valid_time t ∧ (v = Some (JDate t) ∨ v = Some (JStr (ISO.toISOString t))).

(** [n[k]] as an option: [None] when [n] has no own property [k]. *)
Definition field (n : jsval) (k : string) : option jsval :=
  match n with JObj o => o !! k | _ => None end.

(** ** entities/note.entity.ts *)

Module Note.

(** An object with the six properties of the interface [Note].  The
    interface types both timestamps as [Date]; the values are left open
    here, since a record read back from the file holds strings. *)
Definition make (id title content : string) (tags : list string)
    (createdAt updatedAt : jsval) : jsval :=
  JObj {[ "id" := JStr id; "title" := JStr title; "content" := JStr content;
          "tags" := JArr (JStr <$> tags);
          "createdAt" := createdAt; "updatedAt" := updatedAt ]}.

Definition is_string (v : option jsval) : bool :=
  match v with Some (JStr _) => true | _ => false end.

Definition is_strings (v : option jsval) : bool :=
  match v with
  | Some (JArr l) => forallb (fun x => is_string (Some x)) l
  | _ => false
  end.

(** The shape of a record in the file. *)
Definition shape (n : jsval) : bool :=
  is_object n && is_string (field n "id") && is_string (field n "title")
  && is_string (field n "content") && is_strings (field n "tags")
  && is_string (field n "createdAt") && is_string (field n "updatedAt").

End Note.

(** The shape the repository expects of the file: a sequence of records. *)
Definition expected_shape (v : jsval) : bool :=
  match v with JArr l => forallb Note.shape l | _ => false end.

(** ** Sample data *)

Module Sample.

Definition t0 : Z := 1762150000123.

Definition react_hook : jsval :=
  Note.make "n1" "React Hook" "no match" ["frontend"]
    (JStr (ISO.toISOString t0)) (JStr (ISO.toISOString t0)).

Definition unrelated : jsval :=
  Note.make "n2" "Unrelated" "nothing" []
    (JStr (ISO.toISOString t0)) (JStr (ISO.toISOString t0)).

Definition two_notes : World :=
  mkWorld (Text (Wellformed (JArr [react_hook; unrelated]))) None [].

Definition empty : World := mkWorld (Text (Wellformed (JArr []))) None [].

Definition T1 : CreateNoteDto.t := CreateNoteDto.mk "T1" "C1" (Some ["a"]).

Definition T2 : CreateNoteDto.t := CreateNoteDto.mk "T2" "C2" None.

Definition retitle : UpdateNoteDto.t := UpdateNoteDto.mk (Some "Z") None None.

Definition recontent : UpdateNoteDto.t :=
  UpdateNoteDto.mk None (Some "C2-updated") None.

(** A body that validation with a whitelist would have stripped. *)
Definition forged : gmap string jsval :=
  {[ "id" := JStr "n9"; "createdAt" := JStr "1999-01-01T00:00:00.000Z" ]}.

(** A file that holds valid JSON, but no sequence of notes. *)
Definition not_notes : World := mkWorld (Text (Wellformed (JObj ∅))) None [].

Definition garbled : World := mkWorld (Text (Malformed "[{")) None [].

End Sample.

(** An outcome that is the service's [NotFoundException]. *)
Definition fails_not_found {A} (r : result A * World) : Prop :=
  ∃ message, fst r = Err (NotFoundException message).

(** ** Histories of the service *)

(** A request to the service with a validated body. *)
Inductive request : Type :=
  | Create (uuid : string) (body : CreateNoteDto.t)
  | FindAll
  | FindOne (id : string)
  | Update (id : string) (body : UpdateNoteDto.t)
  | Remove (id : string).

(** The world after the request is served at time [now]. *)
Definition serve (now : Z) (r : request) (w : World) : World :=
  match r with
  | Create uuid body =>
      snd (NotesService.create now uuid (CreateNoteDto.object body) w)
  | FindAll => snd (NotesService.findAll w)
  | FindOne id => snd (NotesService.findOne id w)
  | Update id body =>
      snd (NotesService.update now id (UpdateNoteDto.object body) w)
  | Remove id => snd (NotesService.remove id w)
  end.

(** The service writes the text of an array only, and what an interrupted
    write leaves of such a text, the empty text or its first bytes, is no
    JSON text. *)
Definition cut_off (refused : option failure) : Prop :=
  match refused with
  | Some (AfterOpen _ (Wellformed _)) => False
  | _ => True
  end.

(** The worlds reached from the empty collection by serving requests
    while the clock does not go back; in between, the file system may
    start or stop failing the writes, at open or after it.
    [reachable t w]: [w] is reached and the clock has shown [t]. *)
Inductive reachable : Z -> World -> Prop :=
  | reach_empty (t : Z) (w : World) :
      holds w [] -> cut_off (write_refused w) -> reachable t w
  | reach_serve (t now : Z) (r : request) (w : World) :
      reachable t w -> t <= now -> ISO.valid_time now ->
      reachable now (serve now r w)
  | reach_refusal (t : Z) (w : World) (refused : option failure) :
      reachable t w -> cut_off refused ->
      reachable t (mkWorld (disk w) refused (written w)).

(** What the histories keep: the file holds a collection with the property
    [P], unless an interrupted write has left it cut off. *)
Definition keeps (P : list jsval -> Prop) (w : World) : Prop :=
  cut_off (write_refused w)
  ∧ ((∃ raw, disk w = Text (Malformed raw)) ∨ ∃ notes, holds w notes ∧ P notes).

(** [updatedAt >= createdAt] on a record. *)
Definition ordered (n : jsval) : Prop :=
  ∃ c u, instant (field n "createdAt") c ∧ instant (field n "updatedAt") u ∧ c <= u.

(** The invariant of the histories: every record of the file is a JSON
    object stamped with the ISO strings of two instants in order, none
    later than the clock. *)
Definition stamped_by (t : Z) (n : jsval) : Prop :=
  ∃ o c u, n = JObj o ∧ json n
    ∧ o !! "createdAt" = Some (JStr (ISO.toISOString c))
    ∧ o !! "updatedAt" = Some (JStr (ISO.toISOString u))
    ∧ ISO.valid_time c ∧ ISO.valid_time u ∧ c <= u <= t.

(** ** Stored arrays in general

    Nothing checks what the file holds, so the array that [readNotes]
    returns may hold values that are no records. *)

(** [n.id] can be read: [n] is neither [null] nor [undefined]. *)
Definition readable (n : jsval) : bool :=
  match n with JUndefined | JNull => false | _ => true end.

(** How many elements of [notes] have the id. *)
Definition count_id (id : string) (notes : list jsval) : nat :=
  length (List.filter (has_id id) notes).

(** What a mutating operation does to the world: one write of the whole
    file when it returns; when it throws a system error, either nothing (the
    read failed) or what the one failed write did; nothing when it throws
    anything else. *)
Definition wrote_once {A} (r : result A * World) (w : World) : Prop :=
  match fst r with
  | Ok _ => ∃ c, snd r = mkWorld (Text c) None (c :: written w)
  | Err (SystemError code) =>
      snd r = w
      ∨ ∃ f, write_refused w = Some f ∧ code = failure_code f
             ∧ snd r = interrupted f w
  | Err _ => snd r = w
  end.

(** The generated id of a create request is new to the stored collection. *)
Definition fresh (r : request) (w : World) : Prop :=
  match r with
  | Create uuid _ => ∀ notes, holds w notes -> count_id uuid notes = O
  | _ => True
  end.

(** The worlds reached from the empty collection by requests whose
    generated ids are fresh. *)
Inductive history : World -> Prop :=
  | history_empty (w : World) :
      holds w [] -> cut_off (write_refused w) -> history w
  | history_serve (now : Z) (r : request) (w : World) :
      history w -> fresh r w -> history (serve now r w)
  | history_refusal (w : World) (refused : option failure) :
      history w -> cut_off refused ->
      history (mkWorld (disk w) refused (written w)).

Module Sample2.

(** No file yet, as on the first start. *)
Definition first_start : World := mkWorld Missing None [].

(** A second record with the id of [Sample.react_hook]. *)
Definition twin : jsval :=
  Note.make "n1" "Twin" "same id" []
    (JStr (ISO.toISOString Sample.t0)) (JStr (ISO.toISOString Sample.t0)).

Definition twins : World :=
  mkWorld (Text (Wellformed (JArr [Sample.react_hook; Sample.unrelated; twin]))) None [].

(** An array with a [null] ahead of the record. *)
Definition with_null : World :=
  mkWorld (Text (Wellformed (JArr [JNull; Sample.react_hook]))) None [].

(** An array with a number and a string ahead of the record, and a [null]
    after it. *)
Definition with_scalars : World :=
  mkWorld (Text (Wellformed (JArr [JNum 7; JStr "x"; Sample.react_hook; JNull]))) None [].

(** A file that holds a JSON string. *)
Definition a_string : World := mkWorld (Text (Wellformed (JStr "notes"))) None [].

Definition recontent_Z : UpdateNoteDto.t :=
  UpdateNoteDto.mk None (Some "B") (Some ["y"]).

(** A body with entries that the service sets itself. *)
Definition eager : gmap string jsval :=
  {[ "title" := JStr "T"; "id" := JStr "mine"; "createdAt" := JStr "then";
     "tags" := JStr "" ]}.

(** A patch that gives [content] the value [undefined]. *)
Definition blanking : gmap string jsval := {[ "content" := JUndefined ]}.

(** A patch that carries a [createdAt] later than the clock. *)
Definition postdating : gmap string jsval :=
  {[ "createdAt" := JStr (ISO.toISOString 100) ]}.

(** A value of [uuidv4()], and a file that holds a record with that id. *)
Definition an_uuid : string := "3b241101-e2bb-4255-8caf-4136c566a962".

Definition holder : jsval :=
  Note.make an_uuid "Kept" "stored earlier" []
    (JStr (ISO.toISOString Sample.t0)) (JStr (ISO.toISOString Sample.t0)).

Definition one_note : World := mkWorld (Text (Wellformed (JArr [holder]))) None [].

(** No file yet, and a disk that fills up once the file is created. *)
Definition full_disk : World :=
  mkWorld Missing (Some (AfterOpen ENOSPC (Malformed EmptyString))) [].

(** The two notes on a disk where a write ends after the first bytes. *)
Definition two_notes_full_disk : World :=
  mkWorld (Text (Wellformed (JArr [Sample.react_hook; Sample.unrelated])))
    (Some (AfterOpen ENOSPC (Malformed "[{"))) [].

End Sample2.

(** * Properties *)

(** ** ISO strings

    [toISOString] is injective on time values, so an ISO string in the file
    stands for one instant. *)

Section iso.
Import ISO.

Ltac compare_tests :=
  repeat match goal with
         | H : context [?x <? ?y] |- _ => destruct (Z.ltb_spec x y)
         | H : context [?x <=? ?y] |- _ => destruct (Z.leb_spec x y)
         end.

Lemma yoe_bounds (doe : Z) :
  0 <= doe < 146097 -> 0 <= yoe_of doe <= 399 ∧ 0 <= doy_of doe <= 365.
Proof.
  intros H. unfold doy_of, yoe_of. cbv zeta. Z.div_mod_to_equations; lia.
Qed.

(** [civil_from_days] on the era, the day of the era and its year. *)
Lemma civil_from_days_eras (days : Z) :
  ∃ era doe yoe,
    days + 719468 = 146097 * era + doe ∧ 0 <= doe < 146097
    ∧ 0 <= yoe <= 399 ∧ 0 <= doe - (365 * yoe + yoe / 4 - yoe / 100) <= 365
    ∧ civil_from_days days =
        (let doy := doe - (365 * yoe + yoe / 4 - yoe / 100) in
         let mp := (5 * doy + 2) / 153 in
         let d := doy - (153 * mp + 2) / 5 + 1 in
         let m := if mp <? 10 then mp + 3 else mp - 9 in
         (yoe + era * 400 + (if m <=? 2 then 1 else 0), m, d)).
Proof.
  exists ((days + 719468) / 146097), ((days + 719468) mod 146097),
    (yoe_of ((days + 719468) mod 146097)).
  pose proof (Z.mod_pos_bound (days + 719468) 146097 eq_refl) as R.
  pose proof (yoe_bounds _ R) as [Hy Hd].
  unfold doy_of in Hd. cbv zeta in Hd.
  split; [apply Z.div_mod; lia|]. split; [done|]. split; [done|]. by split.
Qed.

Lemma civil_from_days_inj (a b : Z) :
  civil_from_days a = civil_from_days b -> a = b.
Proof.
  destruct (civil_from_days_eras a) as (ea & ra & ya & Da & Ra & Ya & Ha & ->).
  destruct (civil_from_days_eras b) as (eb & rb & yb & Db & Rb & Yb & Hb & ->).
  cbv zeta. intros H. compare_tests.
  all: injection H as Hy Hm Hd.
  all: Z.div_mod_to_equations; lia.
Qed.

Lemma civil_bounds (days y m d : Z) :
  -100000000 <= days <= 100000000 -> civil_from_days days = (y, m, d) ->
  -999999 <= y <= 999999 ∧ 1 <= m <= 12 ∧ 1 <= d <= 31.
Proof.
  destruct (civil_from_days_eras days) as (ea & ra & ya & Da & Ra & Ya & Ha & ->).
  cbv zeta. intros Hdays H. compare_tests.
  all: injection H as Hy Hm Hd.
  all: Z.div_mod_to_equations; lia.
Qed.

Lemma digit_code (n : Z) : nat_of_ascii (digit n) = (48 + Z.to_nat (n mod 10))%nat.
Proof.
  unfold digit. apply nat_ascii_embedding.
  pose proof (Z.mod_pos_bound n 10 eq_refl). lia.
Qed.

Lemma digit_inj (a b : Z) : digit a = digit b -> a mod 10 = b mod 10.
Proof.
  intros H%(f_equal nat_of_ascii). rewrite !digit_code in H.
  pose proof (Z.mod_pos_bound a 10 eq_refl).
  pose proof (Z.mod_pos_bound b 10 eq_refl). lia.
Qed.

Lemma digit_not_sign (a : Z) (c : ascii) :
  (nat_of_ascii c < 48)%nat -> digit a ≠ c.
Proof.
  intros Hc H%(f_equal nat_of_ascii). rewrite digit_code in H. lia.
Qed.

Lemma format_inj (y m d h mi s ms y' m' d' h' mi' s' ms' : Z) :
  -999999 <= y <= 999999 -> -999999 <= y' <= 999999 ->
  0 <= m < 100 -> 0 <= m' < 100 -> 0 <= d < 100 -> 0 <= d' < 100 ->
  0 <= h < 100 -> 0 <= h' < 100 -> 0 <= mi < 100 -> 0 <= mi' < 100 ->
  0 <= s < 100 -> 0 <= s' < 100 -> 0 <= ms < 1000 -> 0 <= ms' < 1000 ->
  format y m d h mi s ms = format y' m' d' h' mi' s' ms' ->
  y = y' ∧ m = m' ∧ d = d' ∧ h = h' ∧ mi = mi' ∧ s = s' ∧ ms = ms'.
Proof.
  intros. unfold format, year in *.
  destruct (Z.leb_spec 0 y), (Z.leb_spec y 9999), (Z.ltb_spec y 0);
    destruct (Z.leb_spec 0 y'), (Z.leb_spec y' 9999), (Z.ltb_spec y' 0);
    try lia; cbv [digits String.append andb] in *.
  all: match goal with H : String _ _ = String _ _ |- _ => injection H as ? end.
  all: try (exfalso; eapply digit_not_sign;
            [|eassumption || (symmetry; eassumption)]; vm_compute; lia).
  all: try discriminate.
  all: repeat match goal with
              | H : digit _ = digit _ |- _ => apply digit_inj in H
              end.
  all: Z.div_mod_to_equations; lia.
Qed.

Lemma toISOString_format (t y m d : Z) :
  civil_from_days (t / 86400000) = (y, m, d) ->
  toISOString t =
    format y m d (t mod 86400000 / 3600000) (t mod 86400000 / 60000 mod 60)
      (t mod 86400000 / 1000 mod 60) (t mod 86400000 mod 1000).
Proof. unfold toISOString. by intros ->. Qed.

Lemma toISOString_inj (t t' : Z) :
  valid_time t -> valid_time t' -> toISOString t = toISOString t' -> t = t'.
Proof.
  unfold valid_time. intros Ht Ht'.
  destruct (civil_from_days (t / 86400000)) as [[y m] d] eqn:E.
  destruct (civil_from_days (t' / 86400000)) as [[y' m'] d'] eqn:E'.
  rewrite (toISOString_format t y m d E), (toISOString_format t' y' m' d' E').
  pose proof (civil_bounds (t / 86400000) y m d) as B.
  pose proof (civil_bounds (t' / 86400000) y' m' d') as B'.
  destruct B as (By & Bm & Bd); [Z.div_mod_to_equations; lia|done|].
  destruct B' as (By' & Bm' & Bd'); [Z.div_mod_to_equations; lia|done|].
  intros (-> & -> & -> & Hh & Hmi & Hs & Hms)%format_inj;
    try lia; try (Z.div_mod_to_equations; lia).
  rewrite <- E' in E. apply civil_from_days_inj in E.
  Z.div_mod_to_equations; lia.
Qed.

End iso.

(** A timestamp value stands for one instant only. *)
Lemma instant_unique (v : option jsval) (t t' : Z) :
  instant v t -> instant v t' -> t = t'.
Proof.
  intros [Ht [-> | ->]] [Ht' [H|H]]; simplify_eq; try done.
  by apply toISOString_inj.
Qed.

(** ** Induction on values *)

Lemma depth_elem (l : list jsval) (x : jsval) :
  x ∈ l -> (depth x < depth (JArr l))%nat.
Proof.
  induction 1 as [x l|x y l _ IH]; simpl in *; lia.
Qed.

Lemma depth_lookup (o : gmap string jsval) (k : string) (x : jsval) :
  o !! k = Some x -> (depth x < depth (JObj o))%nat.
Proof.
  simpl. revert k x.
  induction o as [|i y m Hi IH] using map_ind; intros k x Hk.
  - by rewrite lookup_empty in Hk.
  - rewrite map_fold_insert_L; [|intros; lia|done].
    destruct (decide (i = k)) as [->|Hne].
    + rewrite lookup_insert_eq in Hk. injection Hk as ->. lia.
    + rewrite lookup_insert_ne in Hk by done. specialize (IH _ _ Hk). lia.
Qed.

Lemma jsval_depth_ind (P : jsval -> Prop) :
  (forall v, (forall v', (depth v' < depth v)%nat -> P v') -> P v) ->
  forall v, P v.
Proof.
  intros step v.
  assert (H : forall n v, (depth v < n)%nat -> P v).
  { induction n as [|n IH]; intros u Hu; [lia|].
    apply step. intros v' Hv'. apply IH. lia. }
  apply (H (S (depth v))). lia.
Qed.

(** ** Serialisation *)

(** What [JSON.stringify] writes reads back as itself. *)
Lemma toJSON_json (v j : jsval) : toJSON v = Some j -> json j.
Proof.
  revert j. induction v as [v IH] using jsval_depth_ind. intros j Hj.
  destruct v; simpl in Hj; simplify_eq; try reflexivity.
  - unfold json. simpl. do 2 f_equal. rewrite map_map.
    apply map_ext_in. intros x Hx%list_elem_of_In.
    destruct (toJSON x) as [jx|] eqn:Ex; simpl; [|done].
    by rewrite (IH x (depth_elem _ _ Hx) jx Ex).
  - unfold json. simpl. do 2 f_equal. apply map_eq. intros k.
    rewrite !lookup_omap. destruct (o !! k) as [x|] eqn:Ek; simpl; [|done].
    destruct (toJSON x) as [jx|] eqn:Ex; simpl; [|done].
    exact (IH x (depth_lookup _ _ _ Ek) jx Ex).
Qed.

Lemma json_elem (l : list jsval) (x : jsval) : json (JArr l) -> x ∈ l -> json x.
Proof.
  unfold json. simpl. intros Hl Hx. injection Hl as Hl.
  induction Hx as [x l|x y l Hx IH]; simpl in Hl; injection Hl as Hy Hl; [|by apply IH].
  destruct (toJSON x) as [j|] eqn:Ex; simpl in Hy; [by subst|].
  by subst.
Qed.

Lemma json_array (l : list jsval) : Forall json l -> json (JArr l).
Proof.
  unfold json. simpl. intros Hl. do 2 f_equal.
  induction Hl as [|x l Hx _ IH]; simpl; [done|]. by rewrite Hx, IH.
Qed.

Lemma json_array_iff (l : list jsval) : json (JArr l) <-> Forall json l.
Proof.
  split; [|apply json_array].
  intros Hl. apply Forall_forall. intros x Hx. by apply (json_elem l).
Qed.

Lemma json_lookup (o : gmap string jsval) (k : string) (x : jsval) :
  json (JObj o) -> o !! k = Some x -> json x.
Proof.
  unfold json. simpl. intros Ho Hk. injection Ho as Ho.
  assert (H : omap toJSON o !! k = Some x) by (by rewrite Ho).
  rewrite lookup_omap, Hk in H. exact H.
Qed.

(** Serialising an array whose elements but one are already JSON. *)
Lemma toJSON_middle (l1 l2 : list jsval) (x j : jsval) :
  Forall json l1 -> Forall json l2 -> toJSON x = Some j ->
  toJSON (JArr (l1 ++ x :: l2)) = Some (JArr (l1 ++ j :: l2)).
Proof.
  intros H1%json_array H2%json_array Hx. unfold json in H1, H2. simpl in *.
  injection H1 as H1. injection H2 as H2.
  by rewrite map_app, H1; simpl; rewrite H2, Hx.
Qed.

(** ** The repository *)

Lemma readNotes_holds (w : World) (notes : list jsval) :
  holds w notes -> NotesRepository.readNotes w = (Ok (JArr notes), w).
Proof.
  unfold holds, NotesRepository.readNotes, mbind, IO_bind, readFile, lift.
  by intros ->.
Qed.

Lemma writeNotes_json (w : World) (notes : list jsval) :
  write_refused w = None -> json (JArr notes) ->
  NotesRepository.writeNotes (JArr notes) w = (Ok tt, saved w notes).
Proof.
  intros Hw Hj. unfold NotesRepository.writeNotes, JSON_stringify.
  rewrite Hj. cbn. unfold writeFile, saved. by rewrite Hw.
Qed.

Lemma writeNotes_fails (w : World) (notes : list jsval) (f : failure) :
  write_refused w = Some f ->
  NotesRepository.writeNotes (JArr notes) w
  = (Err (SystemError (failure_code f)), interrupted f w).
Proof.
  intros Hw. unfold NotesRepository.writeNotes, JSON_stringify. cbn.
  unfold writeFile. by rewrite Hw.
Qed.

(** A failed read is the whole outcome of any program that starts with it. *)
Lemma readNotes_fails_bind {A} (k : jsval -> IO A) (w : World) (e : exn) :
  fst (NotesRepository.readNotes w) = Err e ->
  (NotesRepository.readNotes ≫= k) w = (Err e, w).
Proof.
  unfold NotesRepository.readNotes, mbind, IO_bind, readFile, lift.
  destruct (disk w) as [| |[raw|v]]; simpl; intros H; by simplify_eq.
Qed.

(** ** Looking a record up by id *)

Section lookup.
Context (id : string).

Lemma by_id_object (n : jsval) :
  is_object n = true -> NotesService.by_id id n = Ok (has_id id n).
Proof. by destruct n. Qed.

Lemma find_absent (l : list jsval) :
  Forall (fun n => is_object n = true) l ->
  Forall (fun n => has_id id n = false) l ->
  find (NotesService.by_id id) l = Ok JUndefined
  ∧ findIndex (NotesService.by_id id) l = Ok (-1).
Proof.
  induction 1 as [|n l Hn _ IH]; [done|].
  intros [Hid Hl]%Forall_cons. destruct (IH Hl) as [IH1 IH2]. simpl.
  by rewrite (by_id_object n Hn), Hid, IH1, IH2.
Qed.

Lemma find_first (l1 l2 : list jsval) (n : jsval) :
  Forall (fun n => is_object n = true) l1 ->
  Forall (fun n => has_id id n = false) l1 ->
  has_id id n = true ->
  find (NotesService.by_id id) (l1 ++ n :: l2) = Ok n
  ∧ findIndex (NotesService.by_id id) (l1 ++ n :: l2) = Ok (Z.of_nat (length l1)).
Proof.
  intros Hobj Hno Hn. induction Hobj as [|m l1 Hm _ IH].
  - assert (is_object n = true) as Ho by (by destruct n).
    simpl. by rewrite (by_id_object n Ho), Hn.
  - apply Forall_cons in Hno as [Hid Hno]. destruct (IH Hno) as [IH1 IH2].
    cbn [app find findIndex]. rewrite (by_id_object m Hm), Hid, IH1, IH2.
    split; [done|]. cbn [mbind result_bind]. f_equal.
    rewrite length_cons.
    destruct (Z.eqb_spec (Z.of_nat (length l1)) (-1)); lia.
Qed.

(** Either no record has the id, or there is a first one that has it. *)
Lemma first_with_id (l : list jsval) :
  Forall (fun n => has_id id n = false) l
  ∨ ∃ l1 n l2, l = l1 ++ n :: l2
      ∧ Forall (fun n => has_id id n = false) l1 ∧ has_id id n = true.
Proof.
  induction l as [|m l IH]; [by left|].
  destruct (has_id id m) eqn:Hm.
  - right. by exists [], m, l.
  - destruct IH as [IH|(l1 & n & l2 & -> & H1 & Hn)].
    + left. by constructor.
    + right. exists (m :: l1), n, l2. repeat split; [|done]. by constructor.
Qed.

Lemma has_id_object (n : jsval) : has_id id n = true -> is_object n = true.
Proof. by destruct n. Qed.

Lemma has_id_truthy (n : jsval) : has_id id n = true -> truthy n = true.
Proof. by destruct n. Qed.

End lookup.

(** ** Running the operations on a stored collection *)

Section operations.
Context (w : World) (id : string).

Ltac start H :=
  unfold NotesService.findOne, NotesService.update, NotesService.remove,
    NotesService.create, mbind, IO_bind, lift, throw, mret, IO_ret;
  rewrite (readNotes_holds _ _ H); cbn [as_array].

Lemma findOne_absent (notes : list jsval) :
  holds w notes -> Forall (fun n => is_object n = true) notes ->
  Forall (fun n => has_id id n = false) notes ->
  NotesService.findOne id w = (Err (NotesService.not_found id), w).
Proof.
  intros H Hobj Hno. start H.
  by rewrite (proj1 (find_absent id notes Hobj Hno)).
Qed.

Lemma findOne_found (l1 l2 : list jsval) (n : jsval) :
  holds w (l1 ++ n :: l2) -> Forall (fun n => is_object n = true) l1 ->
  Forall (fun n => has_id id n = false) l1 -> has_id id n = true ->
  NotesService.findOne id w = (Ok n, w).
Proof.
  intros H Hobj Hno Hn. start H.
  rewrite (proj1 (find_first id l1 l2 n Hobj Hno Hn)).
  by rewrite (has_id_truthy id n Hn).
Qed.

Lemma update_absent (now : Z) (patch : gmap string jsval) (notes : list jsval) :
  holds w notes -> Forall (fun n => is_object n = true) notes ->
  Forall (fun n => has_id id n = false) notes ->
  NotesService.update now id patch w = (Err (NotesService.not_found id), w).
Proof.
  intros H Hobj Hno. start H.
  by rewrite (proj2 (find_absent id notes Hobj Hno)).
Qed.

Lemma remove_absent (notes : list jsval) :
  holds w notes -> Forall (fun n => is_object n = true) notes ->
  Forall (fun n => has_id id n = false) notes ->
  NotesService.remove id w = (Err (NotesService.not_found id), w).
Proof.
  intros H Hobj Hno. start H.
  by rewrite (proj2 (find_absent id notes Hobj Hno)).
Qed.

(** [update] on the first record with the id: the merged record replaces
    it in place and the whole array goes to [writeNotes]. *)
Lemma update_found (now : Z) (patch o : gmap string jsval) (l1 l2 : list jsval) :
  holds w (l1 ++ JObj o :: l2) -> Forall (fun n => is_object n = true) l1 ->
  Forall (fun n => has_id id n = false) l1 -> has_id id (JObj o) = true ->
  NotesService.update now id patch w =
    let updatedNote := JObj (<["updatedAt" := JDate now]> (patch ∪ o)) in
    match NotesRepository.writeNotes (JArr (l1 ++ updatedNote :: l2)) w with
    | (Ok _, w') => (Ok updatedNote, w')
    | (Err e, w') => (Err e, w')
    end.
Proof.
  intros H Hobj Hno Hn. start H.
  rewrite (proj2 (find_first id l1 l2 _ Hobj Hno Hn)).
  destruct (Z.eqb_spec (Z.of_nat (length l1)) (-1)) as [|_]; [lia|].
  rewrite Nat2Z.id, list_lookup_middle by done. cbn [default spread].
  replace (length l1) with (length l1 + 0)%nat at 1 by lia.
  by rewrite insert_app_r.
Qed.

Lemma remove_found (l1 l2 : list jsval) (n : jsval) :
  holds w (l1 ++ n :: l2) -> Forall (fun n => is_object n = true) l1 ->
  Forall (fun n => has_id id n = false) l1 -> has_id id n = true ->
  NotesService.remove id w = NotesRepository.writeNotes (JArr (l1 ++ l2)) w.
Proof.
  intros H Hobj Hno Hn. start H.
  rewrite (proj2 (find_first id l1 l2 _ Hobj Hno Hn)).
  destruct (Z.eqb_spec (Z.of_nat (length l1)) (-1)) as [|_]; [lia|].
  by rewrite Nat2Z.id, delete_middle.
Qed.

Lemma create_run (now : Z) (uuid : string) (dto : gmap string jsval)
    (notes : list jsval) :
  holds w notes ->
  NotesService.create now uuid dto w =
    let tags := default JUndefined (dto !! "tags") in
    let newNote :=
      JObj (<["updatedAt" := JDate now]>
            (<["createdAt" := JDate now]>
             (<["tags" := if truthy tags then tags else JArr []]>
              (dto ∪ {["id" := JStr uuid]})))) in
    match NotesRepository.writeNotes (JArr (notes ++ [newNote])) w with
    | (Ok _, w') => (Ok newNote, w')
    | (Err e, w') => (Err e, w')
    end.
Proof. intros H. by start H. Qed.

End operations.

(** ** Objects and their serialisation *)

Lemma json_union (a b : gmap string jsval) :
  json (JObj a) -> json (JObj b) -> json (JObj (a ∪ b)).
Proof.
  intros Ha Hb. unfold json. simpl. do 2 f_equal. apply map_eq. intros k.
  rewrite lookup_omap, lookup_union.
  destruct (a !! k) as [x|] eqn:Ea, (b !! k) as [y|] eqn:Eb; simpl; try done.
  - exact (json_lookup a k x Ha Ea).
  - exact (json_lookup a k x Ha Ea).
  - exact (json_lookup b k y Hb Eb).
Qed.

Lemma json_insert (k : string) (x : jsval) (o : gmap string jsval) :
  json x -> json (JObj o) -> json (JObj (<[k := x]> o)).
Proof.
  unfold json. simpl. intros Hx Ho. injection Ho as Ho.
  by rewrite (omap_insert_Some _ _ _ _ _ Hx), Ho.
Qed.

Lemma json_strings (ts : list string) : json (JArr (JStr <$> ts)).
Proof. apply json_array, Forall_fmap, Forall_true. done. Qed.

(** Stamping a JSON object with a Date: the file gets the ISO string. *)
Lemma toJSON_stamp (k : string) (t : Z) (o : gmap string jsval) :
  json (JObj o) ->
  toJSON (JObj (<[k := JDate t]> o)) = Some (JObj (<[k := JStr (ISO.toISOString t)]> o)).
Proof.
  unfold json. simpl. intros Ho. injection Ho as Ho.
  by rewrite (omap_insert_Some _ _ _ _ (JStr (ISO.toISOString t))), Ho.
Qed.

Lemma json_UpdateNoteDto (p : UpdateNoteDto.t) : json (JObj (UpdateNoteDto.object p)).
Proof.
  destruct p as [[t|] [c|] [ts|]]; unfold UpdateNoteDto.object; simpl;
    repeat (apply json_insert; [reflexivity || apply json_strings|]); reflexivity.
Qed.

Lemma json_Note_make (id title content : string) (tags : list string) (c u : jsval) :
  json c -> json u -> json (Note.make id title content tags c u).
Proof.
  intros Hc Hu. unfold Note.make.
  repeat (apply json_insert; [done || apply json_strings|]).
  reflexivity.
Qed.

Lemma toJSON_Note_make (id title content : string) (tags : list string) (c u : Z) :
  toJSON (Note.make id title content tags (JDate c) (JDate u))
  = Some (Note.make id title content tags
            (JStr (ISO.toISOString c)) (JStr (ISO.toISOString u))).
Proof.
  unfold Note.make. cbn [toJSON]. do 2 f_equal.
  rewrite (omap_insert_Some _ _ _ _ (JStr id)) by done.
  rewrite (omap_insert_Some _ _ _ _ (JStr title)) by done.
  rewrite (omap_insert_Some _ _ _ _ (JStr content)) by done.
  rewrite (omap_insert_Some _ _ _ _ (JArr (JStr <$> tags))) by apply json_strings.
  rewrite (omap_insert_Some _ _ _ _ (JStr (ISO.toISOString c))) by done.
  by rewrite (omap_singleton_Some _ _ _ (JStr (ISO.toISOString u))).
Qed.

(** The record that [create] builds from a validated body. *)
Lemma create_newNote (now : Z) (uuid : string) (d : CreateNoteDto.t) :
  let dto := CreateNoteDto.object d in
  let tags := default JUndefined (dto !! "tags") in
  JObj (<["updatedAt" := JDate now]>
        (<["createdAt" := JDate now]>
         (<["tags" := if truthy tags then tags else JArr []]>
          (dto ∪ {["id" := JStr uuid]}))))
  = Note.make uuid (CreateNoteDto.title d) (CreateNoteDto.content d)
      (default [] (CreateNoteDto.tags d)) (JDate now) (JDate now).
Proof.
  destruct d as [t c [ts|]]; unfold Note.make, CreateNoteDto.object; simpl;
    f_equal; apply map_eq; intros k;
    repeat (rewrite lookup_insert || rewrite lookup_union
            || rewrite lookup_singleton || rewrite lookup_empty);
    repeat case_decide; simplify_eq; done.
Qed.

Lemma writeNotes_ok (w : World) (notes stored : list jsval) :
  write_refused w = None -> toJSON (JArr notes) = Some (JArr stored) ->
  NotesRepository.writeNotes (JArr notes) w = (Ok tt, saved w stored).
Proof.
  intros Hw Hj. unfold NotesRepository.writeNotes, JSON_stringify.
  rewrite Hj. cbn. unfold writeFile, saved. by rewrite Hw.
Qed.

Lemma holds_saved (w : World) (notes : list jsval) : holds (saved w notes) notes.
Proof. reflexivity. Qed.

Lemma collection_two_notes : collection [Sample.react_hook; Sample.unrelated].
Proof. split; [reflexivity|]. by repeat constructor. Qed.

(** ** findAll *)

(** C1, as the code has it: the list operation returns the whole stored
    collection, unmodified and in its stored order, without effect on the
    file, whatever search term the request carries; this is the filter of
    the specification when the term is absent or empty. *)
Theorem findAll_returns_whole_collection
    (w : World) (notes : list jsval) (search : option string) :
  holds w notes ->
  NotesController.getAllNotes search w = (Ok (JArr notes), w)
  ∧ NotesService.findAll w = (Ok (JArr notes), w)
  ∧ (search = None ∨ search = Some "" -> SpecSearch.findAll search notes = notes).
Proof.
  intros H. unfold NotesController.getAllNotes, NotesService.findAll.
  rewrite (readNotes_holds w notes H). repeat split.
  by intros [->| ->].
Qed.

Lemma findAll_returns_whole_collection_witness :
  holds Sample.two_notes [Sample.react_hook; Sample.unrelated]
  ∧ NotesController.getAllNotes (Some "react") Sample.two_notes
    = (Ok (JArr [Sample.react_hook; Sample.unrelated]), Sample.two_notes).
Proof.
  split; [reflexivity|].
  apply (findAll_returns_whole_collection Sample.two_notes _ (Some "react")).
  reflexivity.
Defined.

(** C1, as stated, fails: on the two records of the specification's
    example the search for "react" selects the first record only, and the
    list operation returns both. *)
Lemma findAll_search_term_unused :
  SpecSearch.findAll (Some "react") [Sample.react_hook; Sample.unrelated]
    = [Sample.react_hook]
  ∧ fst (NotesController.getAllNotes (Some "react") Sample.two_notes)
    = Ok (JArr [Sample.react_hook; Sample.unrelated])
  ∧ fst (NotesController.getAllNotes (Some "react") Sample.two_notes)
    ≠ Ok (JArr (SpecSearch.findAll (Some "react")
                  [Sample.react_hook; Sample.unrelated])).
Proof.
  assert (SpecSearch.findAll (Some "react") [Sample.react_hook; Sample.unrelated]
          = [Sample.react_hook]) as Hspec by (vm_compute; reflexivity).
  split; [exact Hspec|]. split; [reflexivity|].
  rewrite Hspec. intros H.
  apply (f_equal (fun r => match r with Ok (JArr l) => length l | _ => O end)) in H.
  vm_compute in H. discriminate H.
Qed.

(** ** create *)

(** [create] with a validated body on a writable store. *)
Lemma create_saved
    (w : World) (notes : list jsval) (now : Z) (uuid : string) (d : CreateNoteDto.t) :
  holds w notes -> json (JArr notes) -> write_refused w = None ->
  let note := Note.make uuid (CreateNoteDto.title d) (CreateNoteDto.content d)
                (default [] (CreateNoteDto.tags d)) in
  NotesService.create now uuid (CreateNoteDto.object d) w
  = (Ok (note (JDate now) (JDate now)),
     saved w (notes ++ [note (JStr (ISO.toISOString now)) (JStr (ISO.toISOString now))])).
Proof.
  intros H Hj Hw note. rewrite (create_run w now uuid _ notes H). cbv zeta.
  rewrite create_newNote. fold note.
  rewrite (writeNotes_ok w _ (notes ++ [note (JStr (ISO.toISOString now))
                                             (JStr (ISO.toISOString now))]) Hw);
    [done|].
  apply toJSON_middle; [by apply json_array_iff|done|apply toJSON_Note_make].
Qed.




(** ** create, then findOne *)

(** C2, as the code has it: after [create], [findOne] on the generated id,
    also in a process started afterwards, returns the JSON image of the
    record that [create] returned: the same id, title, content and tags,
    and for [createdAt] and [updatedAt] the ISO strings of the Date objects
    of the created record. *)
Theorem create_findOne_roundtrip
    (w : World) (notes : list jsval) (now : Z) (uuid : string) (d : CreateNoteDto.t) :
  holds w notes -> collection notes -> write_refused w = None ->
  Forall (fun n => has_id uuid n = false) notes ->
  let note := Note.make uuid (CreateNoteDto.title d) (CreateNoteDto.content d)
                (default [] (CreateNoteDto.tags d)) in
  let created := note (JDate now) (JDate now) in
  let found := note (JStr (ISO.toISOString now)) (JStr (ISO.toISOString now)) in
  let w' := saved w (notes ++ [found]) in
  NotesService.create now uuid (CreateNoteDto.object d) w = (Ok created, w')
  ∧ NotesRepository.ensureDataFileExists w' = (Ok tt, w')
  ∧ NotesService.findOne uuid w' = (Ok found, w')
  ∧ toJSON created = Some found.
Proof.
  intros H [Hj Hobj] Hw Hfresh note created found w'.
  split; [by apply create_saved|]. split; [done|].
  split; [|apply toJSON_Note_make].
  apply (findOne_found w' uuid notes [] found); try done.
  unfold found, note, Note.make, has_id.
  rewrite lookup_insert_eq. simpl. by rewrite String.eqb_refl.
Qed.

Lemma create_findOne_roundtrip_witness :
  holds Sample.two_notes [Sample.react_hook; Sample.unrelated]
  ∧ Forall (fun n => has_id "u1" n = false) [Sample.react_hook; Sample.unrelated]
  ∧ fst (NotesService.findOne "u1"
           (snd (NotesService.create 5 "u1" (CreateNoteDto.object Sample.T1)
                   Sample.two_notes)))
    = Ok (Note.make "u1" "T1" "C1" ["a"]
            (JStr (ISO.toISOString 5)) (JStr (ISO.toISOString 5))).
Proof.
  assert (Forall (fun n => has_id "u1" n = false)
            [Sample.react_hook; Sample.unrelated]) as Hfresh
    by (by repeat constructor).
  split; [reflexivity|]. split; [exact Hfresh|].
  destruct (create_findOne_roundtrip Sample.two_notes
              [Sample.react_hook; Sample.unrelated] 5 "u1" Sample.T1
              eq_refl collection_two_notes eq_refl Hfresh) as (Hc & _ & Hf & _).
  rewrite Hc. cbn [snd]. by rewrite Hf.
Defined.

(** C2, as stated, fails: the record that [findOne] returns differs from
    the record that [create] returned, which holds Date objects where the
    parsed file holds strings. *)
Lemma findOne_after_create_differs :
  fst (NotesService.findOne "u1"
         (snd (NotesRepository.ensureDataFileExists
                 (snd (NotesService.create Sample.t0 "u1"
                         (CreateNoteDto.object Sample.T1) Sample.empty)))))
  ≠ fst (NotesService.create Sample.t0 "u1" (CreateNoteDto.object Sample.T1) Sample.empty).
Proof.
  intros H.
  assert (forall r1 r2 : result jsval, r1 = r2 ->
            (r ← r1; Ok (field r "createdAt")) = (r ← r2; Ok (field r "createdAt")))
    as Hf by (by intros ?? ->).
  apply Hf in H. vm_compute in H. discriminate H.
Qed.

(** ** update *)

Lemma UpdateNoteDto_lookup (p : UpdateNoteDto.t) (k : string) :
  UpdateNoteDto.object p !! k =
    if decide (k = "title") then JStr <$> UpdateNoteDto.title p
    else if decide (k = "content") then JStr <$> UpdateNoteDto.content p
    else if decide (k = "tags")
      then (fun ts => JArr (JStr <$> ts)) <$> UpdateNoteDto.tags p
    else None.
Proof.
  destruct p as [[t|] [c|] [ts|]]; unfold UpdateNoteDto.object; simpl;
    repeat (rewrite lookup_insert || rewrite lookup_empty);
    repeat case_decide; simplify_eq; done.
Qed.

Lemma writeNotes_cases (w : World) (notes : list jsval) :
  (∃ w', NotesRepository.writeNotes (JArr notes) w = (Ok tt, w'))
  ∨ (∃ code w',
       NotesRepository.writeNotes (JArr notes) w = (Err (SystemError code), w')).
Proof.
  unfold NotesRepository.writeNotes, JSON_stringify. cbn. unfold writeFile.
  destruct (write_refused w) as [f|]; [right|left]; eauto.
Qed.

(** The array that [update] writes when the merged record is JSON but for
    its Date. *)
Lemma update_stored (now : Z) (m o : gmap string jsval) (l1 l2 : list jsval) :
  json (JArr (l1 ++ JObj o :: l2)) -> json (JObj m) ->
  toJSON (JArr (l1 ++ JObj (<["updatedAt" := JDate now]> m) :: l2))
  = Some (JArr (l1 ++ JObj (<["updatedAt" := JStr (ISO.toISOString now)]> m) :: l2)).
Proof.
  intros [H1 [_ H2]%Forall_cons]%json_array_iff%Forall_app Hm.
  by apply toJSON_middle; [| |apply toJSON_stamp].
Qed.

(** C3: [update] with a patch over title, content and tags returns the
    old record with exactly the fields of the patch replaced, every other
    field kept, and [updatedAt] set to [new Date()]; the merged record, its
    [updatedAt] as an ISO string, takes the place of the old record in the
    file, and the records before and after it are unchanged. *)
Theorem update_merges_in_place
    (w : World) (l1 l2 : list jsval) (o : gmap string jsval)
    (now : Z) (id : string) (p : UpdateNoteDto.t) :
  holds w (l1 ++ JObj o :: l2) -> collection (l1 ++ JObj o :: l2) ->
  write_refused w = None ->
  Forall (fun n => has_id id n = false) l1 -> has_id id (JObj o) = true ->
  let patch := UpdateNoteDto.object p in
  let merged updatedAt := JObj (<["updatedAt" := updatedAt]> (patch ∪ o)) in
  NotesService.update now id patch w
    = (Ok (merged (JDate now)),
       saved w (l1 ++ merged (JStr (ISO.toISOString now)) :: l2))
  ∧ (∀ u, field (merged u) "title"
          = match UpdateNoteDto.title p with
            | Some s => Some (JStr s) | None => o !! "title" end)
  ∧ (∀ u, field (merged u) "content"
          = match UpdateNoteDto.content p with
            | Some s => Some (JStr s) | None => o !! "content" end)
  ∧ (∀ u, field (merged u) "tags"
          = match UpdateNoteDto.tags p with
            | Some ts => Some (JArr (JStr <$> ts)) | None => o !! "tags" end)
  ∧ (∀ u, field (merged u) "updatedAt" = Some u)
  ∧ (∀ u k, k ∉ ["title"; "content"; "tags"; "updatedAt"] ->
            field (merged u) k = o !! k).
Proof.
  intros H [Hj Hobj] Hw Hno Hid patch merged.
  apply Forall_app in Hobj as [Hobj1 _].
  assert (json (JObj (patch ∪ o))) as Hm.
  { apply json_union; [apply json_UpdateNoteDto|].
    apply (json_elem _ _ Hj). set_solver. }
  split.
  { rewrite (update_found w id now patch o l1 l2 H Hobj1 Hno Hid). cbv zeta.
    by rewrite (writeNotes_ok w _ _ Hw (update_stored now _ o l1 l2 Hj Hm)). }
  unfold merged, field, patch.
  repeat split; intros u; try intros k Hk;
    repeat (rewrite lookup_insert || rewrite lookup_union
            || rewrite UpdateNoteDto_lookup);
    repeat case_decide; simplify_eq; try done.
  - by destruct (UpdateNoteDto.title p), (o !! "title").
  - by destruct (UpdateNoteDto.content p), (o !! "content").
  - by destruct (UpdateNoteDto.tags p), (o !! "tags").
  - set_solver.
  - set_solver.
  - set_solver.
  - set_solver.
  - by destruct (o !! k).
Qed.

Lemma update_merges_in_place_witness :
  holds Sample.two_notes ([] ++ JObj (spread Sample.react_hook) :: [Sample.unrelated])
  ∧ fst (NotesService.update 7 "n1" (UpdateNoteDto.object Sample.retitle) Sample.two_notes)
    = Ok (JObj (<["updatedAt" := JDate 7]>
                  (UpdateNoteDto.object Sample.retitle ∪ spread Sample.react_hook))).
Proof.
  split; [reflexivity|].
  by rewrite (proj1 (update_merges_in_place Sample.two_notes [] [Sample.unrelated]
    (spread Sample.react_hook) 7 "n1" Sample.retitle
    eq_refl collection_two_notes eq_refl (Forall_nil_2 _) eq_refl)).
Defined.

(** C10: [update] with the empty patch keeps title, content and tags (and
    every other field but [updatedAt]) of the record, yet stamps
    [updatedAt] with [new Date()] and writes the whole collection to the
    file again. *)
Theorem update_empty_patch
    (w : World) (l1 l2 : list jsval) (o : gmap string jsval) (now : Z) (id : string) :
  holds w (l1 ++ JObj o :: l2) -> collection (l1 ++ JObj o :: l2) ->
  write_refused w = None ->
  Forall (fun n => has_id id n = false) l1 -> has_id id (JObj o) = true ->
  let stamped updatedAt := JObj (<["updatedAt" := updatedAt]> o) in
  let stored := l1 ++ stamped (JStr (ISO.toISOString now)) :: l2 in
  NotesService.update now id ∅ w = (Ok (stamped (JDate now)), saved w stored)
  ∧ written (saved w stored) = Wellformed (JArr stored) :: written w
  ∧ field (stamped (JDate now)) "updatedAt" = Some (JDate now)
  ∧ (∀ k, k ≠ "updatedAt" -> field (stamped (JDate now)) k = o !! k).
Proof.
  intros H [Hj Hobj] Hw Hno Hid stamped stored.
  apply Forall_app in Hobj as [Hobj1 _].
  assert (json (JObj o)) as Ho by (apply (json_elem _ _ Hj); set_solver).
  split; [|split; [done|split]].
  - rewrite (update_found w id now ∅ o l1 l2 H Hobj1 Hno Hid). cbv zeta.
    rewrite (left_id_L ∅ (∪) o).
    by rewrite (writeNotes_ok w _ _ Hw (update_stored now o o l1 l2 Hj Ho)).
  - apply lookup_insert_eq.
  - intros k Hk. by apply lookup_insert_ne.
Qed.

Lemma update_empty_patch_witness :
  holds Sample.two_notes ([] ++ JObj (spread Sample.react_hook) :: [Sample.unrelated])
  ∧ fst (NotesService.update 7 "n1" ∅ Sample.two_notes)
    = Ok (JObj (<["updatedAt" := JDate 7]> (spread Sample.react_hook))).
Proof.
  split; [reflexivity|].
  by rewrite (proj1 (update_empty_patch Sample.two_notes [] [Sample.unrelated]
    (spread Sample.react_hook) 7 "n1"
    eq_refl collection_two_notes eq_refl (Forall_nil_2 _) eq_refl)).
Defined.

(** C5, as the code has it: for a patch that carries no [id] and no
    [createdAt] entry, as every patch over title, content and tags, the
    record that [update] returns and the record that it writes have the id
    and the [createdAt] of the record they replace. *)
Theorem update_keeps_id_and_createdAt
    (w : World) (l1 l2 : list jsval) (o patch : gmap string jsval)
    (now : Z) (id : string) :
  holds w (l1 ++ JObj o :: l2) -> collection (l1 ++ JObj o :: l2) ->
  write_refused w = None ->
  Forall (fun n => has_id id n = false) l1 -> has_id id (JObj o) = true ->
  patch !! "id" = None -> patch !! "createdAt" = None ->
  ∃ updated stored,
    NotesService.update now id patch w = (Ok updated, saved w (l1 ++ stored :: l2))
    ∧ field updated "id" = o !! "id"
    ∧ field updated "createdAt" = o !! "createdAt"
    ∧ field stored "id" = o !! "id"
    ∧ field stored "createdAt" = o !! "createdAt".
Proof.
  intros H [Hj Hobj] Hw Hno Hid Hpid Hpc.
  apply Forall_app in Hobj as [Hobj1 _].
  assert (json (JObj o)) as Ho by (apply (json_elem _ _ Hj); set_solver).
  apply json_array_iff, Forall_app in Hj as [H1 [_ H2]%Forall_cons].
  set (merged := <["updatedAt" := JDate now]> (patch ∪ o)).
  assert (∀ k, k = "id" ∨ k = "createdAt" -> merged !! k = o !! k) as Hk.
  { intros k Hk. unfold merged.
    rewrite lookup_insert_ne by (by destruct Hk as [->| ->]).
    rewrite lookup_union. by destruct Hk as [->| ->]; rewrite ?Hpid, ?Hpc, (left_id_L None _). }
  assert (∀ k, k = "id" ∨ k = "createdAt" -> omap toJSON merged !! k = o !! k) as Hk'.
  { intros k Hk0. rewrite lookup_omap, (Hk k Hk0).
    destruct (o !! k) as [x|] eqn:Ex; [|done]. exact (json_lookup o k x Ho Ex). }
  exists (JObj merged), (JObj (omap toJSON merged)).
  split; [|by repeat split; simpl; auto].
  rewrite (update_found w id now patch o l1 l2 H Hobj1 Hno Hid). cbv zeta.
  fold merged.
  by rewrite (writeNotes_ok w _ (l1 ++ JObj (omap toJSON merged) :: l2) Hw
                (toJSON_middle l1 l2 (JObj merged) _ H1 H2 eq_refl)).
Qed.

Lemma UpdateNoteDto_no_id (p : UpdateNoteDto.t) :
  UpdateNoteDto.object p !! "id" = None ∧ UpdateNoteDto.object p !! "createdAt" = None.
Proof. by rewrite !UpdateNoteDto_lookup. Qed.

Lemma update_keeps_id_and_createdAt_witness :
  holds Sample.two_notes ([] ++ JObj (spread Sample.react_hook) :: [Sample.unrelated])
  ∧ ∃ updated stored,
      NotesService.update 7 "n1" (UpdateNoteDto.object Sample.retitle) Sample.two_notes
      = (Ok updated, saved Sample.two_notes ([] ++ stored :: [Sample.unrelated]))
      ∧ field updated "id" = Some (JStr "n1")
      ∧ field updated "createdAt" = Some (JStr (ISO.toISOString Sample.t0))
      ∧ field stored "id" = Some (JStr "n1")
      ∧ field stored "createdAt" = Some (JStr (ISO.toISOString Sample.t0)).
Proof.
  split; [reflexivity|].
  exact (update_keeps_id_and_createdAt Sample.two_notes [] [Sample.unrelated]
    (spread Sample.react_hook) (UpdateNoteDto.object Sample.retitle) 7 "n1"
    eq_refl collection_two_notes eq_refl (Forall_nil_2 _) eq_refl eq_refl eq_refl).
Defined.

(** C5, as stated, fails: a patch that carries [id] and [createdAt]
    entries overrides both fields of the record. *)
Lemma update_forged_patch_overrides :
  field Sample.react_hook "id" = Some (JStr "n1")
  ∧ field Sample.react_hook "createdAt" = Some (JStr (ISO.toISOString Sample.t0))
  ∧ (r ← fst (NotesService.update (Sample.t0 + 1) "n1" Sample.forged Sample.two_notes);
     Ok (field r "id", field r "createdAt"))
    = Ok (Some (JStr "n9"), Some (JStr "1999-01-01T00:00:00.000Z")).
Proof. repeat split; vm_compute; reflexivity. Qed.

(** ** Not found *)

(** C4: on a stored collection, [findOne], [update] and [remove] fail with
    the NotFoundException exactly when no record of the collection has the
    id, and then the world is as before: nothing was written. *)
Theorem not_found_exactly_when_absent
    (w : World) (notes : list jsval) (id : string) (now : Z)
    (patch : gmap string jsval) :
  holds w notes -> collection notes ->
  let absent := Forall (fun n => has_id id n = false) notes in
  (fails_not_found (NotesService.findOne id w) <-> absent)
  ∧ (fails_not_found (NotesService.update now id patch w) <-> absent)
  ∧ (fails_not_found (NotesService.remove id w) <-> absent)
  ∧ (absent ->
       NotesService.findOne id w = (Err (NotesService.not_found id), w)
       ∧ NotesService.update now id patch w = (Err (NotesService.not_found id), w)
       ∧ NotesService.remove id w = (Err (NotesService.not_found id), w)).
Proof.
  intros H [_ Hobj] absent.
  destruct (first_with_id id notes) as [Habs|(l1 & n & l2 & -> & Hno & Hn)].
  - pose proof (findOne_absent w id notes H Hobj Habs) as E1.
    pose proof (update_absent w id now patch notes H Hobj Habs) as E2.
    pose proof (remove_absent w id notes H Hobj Habs) as E3.
    unfold fails_not_found. rewrite E1, E2, E3.
    repeat split; try done; intros _; by eexists.
  - assert (¬ absent) as Hpresent.
    { intros [_ [Hn' _]%Forall_cons]%Forall_app. congruence. }
    apply Forall_app in Hobj as [Hobj1 _].
    assert (¬ fails_not_found (NotesService.findOne id w)) as N1.
    { rewrite (findOne_found w id l1 l2 n H Hobj1 Hno Hn). by intros [? ?]. }
    assert (¬ fails_not_found (NotesService.update now id patch w)) as N2.
    { destruct n as [| | | | | | |o]; try done.
      rewrite (update_found w id now patch o l1 l2 H Hobj1 Hno Hn). cbv zeta.
      destruct (writeNotes_cases w (l1 ++ JObj (<["updatedAt" := JDate now]> (patch ∪ o)) :: l2))
        as [[w' ->]|(code & w' & ->)]; by intros [? ?]. }
    assert (¬ fails_not_found (NotesService.remove id w)) as N3.
    { rewrite (remove_found w id l1 l2 n H Hobj1 Hno Hn).
      destruct (writeNotes_cases w (l1 ++ l2)) as [[w' ->]|(code & w' & ->)];
        by intros [? ?]. }
    repeat split; try done.
Qed.

Lemma not_found_exactly_when_absent_witness :
  holds Sample.two_notes [Sample.react_hook; Sample.unrelated]
  ∧ NotesService.remove "n3" Sample.two_notes
    = (Err (NotesService.not_found "n3"), Sample.two_notes).
Proof.
  split; [reflexivity|].
  apply (not_found_exactly_when_absent Sample.two_notes _ "n3" 7 ∅
           eq_refl collection_two_notes).
  by repeat constructor.
Defined.

(** ** remove *)

(** C6: when exactly one record of the collection has the id, [remove]
    writes the collection without it: one record fewer, none with the id,
    the other records unchanged and in their order. *)
Theorem remove_exactly_one
    (w : World) (l1 l2 : list jsval) (n : jsval) (id : string) :
  holds w (l1 ++ n :: l2) -> collection (l1 ++ n :: l2) ->
  write_refused w = None ->
  Forall (fun n => has_id id n = false) l1 -> has_id id n = true ->
  Forall (fun n => has_id id n = false) l2 ->
  NotesService.remove id w = (Ok tt, saved w (l1 ++ l2))
  ∧ length (l1 ++ l2) = (length (l1 ++ n :: l2) - 1)%nat
  ∧ Forall (fun n => has_id id n = false) (l1 ++ l2).
Proof.
  intros H [Hj Hobj] Hw Hno1 Hn Hno2.
  apply Forall_app in Hobj as [Hobj1 _].
  apply json_array_iff, Forall_app in Hj as [H1 [_ H2]%Forall_cons].
  split; [|split].
  - rewrite (remove_found w id l1 l2 n H Hobj1 Hno1 Hn).
    apply writeNotes_json; [done|]. apply json_array, Forall_app. done.
  - rewrite !length_app. simpl. lia.
  - by apply Forall_app.
Qed.

Lemma remove_exactly_one_witness :
  holds Sample.two_notes ([] ++ Sample.react_hook :: [Sample.unrelated])
  ∧ NotesService.remove "n1" Sample.two_notes
    = (Ok tt, saved Sample.two_notes [Sample.unrelated]).
Proof.
  split; [reflexivity|].
  apply (remove_exactly_one Sample.two_notes [] [Sample.unrelated] Sample.react_hook "n1"
           eq_refl collection_two_notes eq_refl (Forall_nil_2 _) eq_refl).
  by repeat constructor.
Defined.

(** ** Storage errors *)




(** ** Timestamps along a history *)

Lemma stamped_by_mono (t t' : Z) (n : jsval) :
  t <= t' -> stamped_by t n -> stamped_by t' n.
Proof.
  intros Ht (o & c & u & -> & Hj & Hc & Hu & Vc & Vu & Hle).
  exists o, c, u. do 6 (split; [done|]). lia.
Qed.

Lemma stamped_by_ordered (t : Z) (n : jsval) : stamped_by t n -> ordered n.
Proof.
  intros (o & c & u & -> & _ & Hc & Hu & Vc & Vu & Hle).
  exists c, u. unfold instant. simpl.
  split; [by split; [|right]|]. split; [by split; [|right]|]. lia.
Qed.

Lemma stamped_by_object (t : Z) (n : jsval) : stamped_by t n -> is_object n = true.
Proof. by intros (o & c & u & -> & _). Qed.

Lemma stamped_by_json (t : Z) (n : jsval) : stamped_by t n -> json n.
Proof. by intros (o & c & u & -> & Hj & _). Qed.

Lemma stamped_collection (t : Z) (notes : list jsval) :
  Forall (stamped_by t) notes -> collection notes.
Proof.
  intros H. split.
  - apply json_array. eapply Forall_impl; [exact H|]. apply stamped_by_json.
  - eapply Forall_impl; [exact H|]. apply stamped_by_object.
Qed.

Lemma stamped_by_created (now : Z) (uuid : string) (d : CreateNoteDto.t) :
  ISO.valid_time now ->
  stamped_by now
    (Note.make uuid (CreateNoteDto.title d) (CreateNoteDto.content d)
       (default [] (CreateNoteDto.tags d))
       (JStr (ISO.toISOString now)) (JStr (ISO.toISOString now))).
Proof.
  intros Hv. eexists _, now, now. split; [reflexivity|].
  split; [by apply json_Note_make|]. do 4 (split; [done|]). lia.
Qed.

Lemma stamped_by_updated (t now : Z) (o : gmap string jsval) (p : UpdateNoteDto.t) :
  t <= now -> ISO.valid_time now -> stamped_by t (JObj o) ->
  stamped_by now
    (JObj (<["updatedAt" := JStr (ISO.toISOString now)]> (UpdateNoteDto.object p ∪ o))).
Proof.
  intros Ht Hv (o' & c & u & [= <-] & Hj & Hc & Hu & Vc & Vu & Hle).
  eexists _, c, now. split; [reflexivity|]. split; [|split; [|split]].
  - apply json_insert; [done|]. apply json_union; [apply json_UpdateNoteDto|done].
  - rewrite lookup_insert_ne by done.
    by rewrite lookup_union, UpdateNoteDto_lookup, Hc.
  - apply lookup_insert_eq.
  - do 2 (split; [done|]). lia.
Qed.

(** Reading operations leave the world as it is. *)
Lemma findAll_world (w : World) : snd (NotesService.findAll w) = w.
Proof.
  unfold NotesService.findAll, NotesRepository.readNotes, mbind, IO_bind, readFile, lift.
  by destruct (disk w) as [| |[raw|v]].
Qed.

Lemma findOne_world (id : string) (w : World) : snd (NotesService.findOne id w) = w.
Proof.
  unfold NotesService.findOne, NotesRepository.readNotes, mbind, IO_bind,
    readFile, lift, throw, mret, IO_ret.
  destruct (disk w) as [| |[raw|v]]; try done. simpl.
  destruct (as_array v) as [l|e]; [|done].
  destruct (find (NotesService.by_id id) l) as [n|e]; [|done].
  by destruct (negb (truthy n)).
Qed.

(** An operation finds a cut-off file unreadable and leaves it. *)
Lemma serve_cut_off (now : Z) (r : request) (w : World) (raw : string) :
  disk w = Text (Malformed raw) -> serve now r w = w.
Proof.
  intros Hd.
  assert (fst (NotesRepository.readNotes w) = Err SyntaxError) as He.
  { unfold NotesRepository.readNotes, mbind, IO_bind, readFile, lift. by rewrite Hd. }
  destruct r as [uuid d| |id|id p|id]; simpl;
    [|apply findAll_world|apply findOne_world| |].
  - unfold NotesService.create. by rewrite (readNotes_fails_bind _ w _ He).
  - unfold NotesService.update. by rewrite (readNotes_fails_bind _ w _ He).
  - unfold NotesService.remove. by rewrite (readNotes_fails_bind _ w _ He).
Qed.

Section keeping.
Context (P : list jsval -> Prop).

Lemma keeps_holds (w : World) (notes : list jsval) :
  cut_off (write_refused w) -> holds w notes -> P notes -> keeps P w.
Proof. intros Hc H HP. split; [done|]. right. by exists notes. Qed.

Lemma keeps_saved (w : World) (notes : list jsval) : P notes -> keeps P (saved w notes).
Proof. intros HP. by apply (keeps_holds _ notes). Qed.

(** A failed write leaves the file as it was or cut off. *)
Lemma keeps_interrupted (f : failure) (w : World) :
  write_refused w = Some f -> keeps P w -> keeps P (interrupted f w).
Proof.
  intros Hw [Hc Hk]. destruct f as [code|code [raw|v]]; simpl.
  - by split.
  - split; [done|]. left. by exists raw.
  - by rewrite Hw in Hc.
Qed.

Lemma keeps_refusal (w : World) (refused : option failure) :
  cut_off refused -> keeps P w -> keeps P (mkWorld (disk w) refused (written w)).
Proof. intros Hc [_ Hk]. by split. Qed.

(** What is kept tells of any collection that the file holds. *)
Lemma keeps_collection (w : World) :
  keeps P w ->
  (∀ notes, holds w notes -> P notes)
  ∧ ((∃ raw, disk w = Text (Malformed raw)) ∨ ∃ notes, holds w notes).
Proof.
  intros [_ [[raw Hd]|(notes & H & HP)]].
  - split; [|left; by exists raw]. unfold holds. intros notes H. congruence.
  - split; [|right; by exists notes]. unfold holds in *. intros notes' H'.
    rewrite H in H'. by injection H' as <-.
Qed.

End keeping.

Lemma serve_keeps_invariant (t now : Z) (r : request) (w : World) :
  t <= now -> ISO.valid_time now ->
  keeps (Forall (stamped_by t)) w -> keeps (Forall (stamped_by now)) (serve now r w).
Proof.
  intros Ht Hv Hk. pose proof Hk as [Hcut [[raw Hd]|(notes & H & Hs)]].
  { rewrite (serve_cut_off now r w raw Hd). split; [done|]. left. by exists raw. }
  assert (Forall (stamped_by now) notes) as Hs'.
  { eapply Forall_impl; [exact Hs|]. intros n. by apply stamped_by_mono. }
  assert (keeps (Forall (stamped_by now)) w) as Hk' by (by apply (keeps_holds _ w notes)).
  pose proof (stamped_collection t notes Hs) as [Hj Hobj].
  destruct r as [uuid d| |id|id p|id]; simpl.
  - rewrite (create_run w now uuid _ notes H). cbv zeta. rewrite create_newNote.
    destruct (write_refused w) as [f|] eqn:Hw.
    + rewrite (writeNotes_fails w _ f Hw). by apply keeps_interrupted.
    + erewrite (writeNotes_ok w _ _ Hw);
        [|apply toJSON_middle; [by apply json_array_iff|done|apply toJSON_Note_make]].
      apply keeps_saved, Forall_app. split; [done|]. constructor; [|done].
      by apply stamped_by_created.
  - by rewrite findAll_world.
  - by rewrite findOne_world.
  - destruct (first_with_id id notes) as [Habs|(l1 & n & l2 & -> & Hno & Hn)].
    + by rewrite (update_absent w id now _ notes H Hobj Habs).
    + destruct n as [| | | | | | |o]; try done.
      apply Forall_app in Hobj as [Hobj1 _].
      rewrite (update_found w id now _ o l1 l2 H Hobj1 Hno Hn). cbv zeta.
      destruct (write_refused w) as [f|] eqn:Hw.
      * rewrite (writeNotes_fails w _ f Hw). by apply keeps_interrupted.
      * apply Forall_app in Hs as [Hs1 [Ho Hs2]%Forall_cons].
        apply Forall_app in Hs' as [Hs1' [_ Hs2']%Forall_cons].
        assert (json (JObj (UpdateNoteDto.object p ∪ o))) as Hm.
        { apply json_union; [apply json_UpdateNoteDto|by eapply stamped_by_json]. }
        rewrite (writeNotes_ok w _ _ Hw (update_stored now _ o l1 l2 Hj Hm)).
        apply keeps_saved, Forall_app. split; [done|]. constructor; [|done].
        by apply (stamped_by_updated t).
  - destruct (first_with_id id notes) as [Habs|(l1 & n & l2 & -> & Hno & Hn)].
    + by rewrite (remove_absent w id notes H Hobj Habs).
    + apply Forall_app in Hobj as [Hobj1 _].
      rewrite (remove_found w id l1 l2 n H Hobj1 Hno Hn).
      destruct (write_refused w) as [f|] eqn:Hw.
      * rewrite (writeNotes_fails w _ f Hw). by apply keeps_interrupted.
      * apply Forall_app in Hs' as [Hs1' [_ Hs2']%Forall_cons].
        assert (Forall (stamped_by now) (l1 ++ l2)) as Hs'' by (by apply Forall_app).
        rewrite (writeNotes_json w (l1 ++ l2) Hw (proj1 (stamped_collection _ _ Hs''))).
        by apply keeps_saved.
Qed.

Lemma reachable_invariant (t : Z) (w : World) :
  reachable t w -> keeps (Forall (stamped_by t)) w.
Proof.
  induction 1 as [t w H Hc|t now r w _ IH Ht Hv|t w refused _ IH Hc].
  - by apply (keeps_holds _ w []).
  - by apply (serve_keeps_invariant t).
  - by apply keeps_refusal.
Qed.




(** ** The scenario of the specification

    create T1, list, create T2 without tags, update the content of T2,
    remove T1, list. *)

Example scenario :
  let w1 := serve 1 (Create "a1" Sample.T1) Sample.empty in
  let w2 := serve 2 (Create "a2" Sample.T2) w1 in
  let w3 := serve 3 (Update "a2" Sample.recontent) w2 in
  let w4 := serve 4 (Remove "a1") w3 in
  fst (NotesService.findAll w1)
    = Ok (JArr [Note.make "a1" "T1" "C1" ["a"]
                  (JStr "1970-01-01T00:00:00.001Z") (JStr "1970-01-01T00:00:00.001Z")])
  ∧ fst (NotesService.create 2 "a2" (CreateNoteDto.object Sample.T2) w1)
    = Ok (Note.make "a2" "T2" "C2" [] (JDate 2) (JDate 2))
  ∧ fst (NotesService.update 3 "a2" (UpdateNoteDto.object Sample.recontent) w2)
    = Ok (Note.make "a2" "T2" "C2-updated" []
            (JStr "1970-01-01T00:00:00.002Z") (JDate 3))
  ∧ fst (NotesService.findAll w4)
    = Ok (JArr [Note.make "a2" "T2" "C2-updated" []
                  (JStr "1970-01-01T00:00:00.002Z") (JStr "1970-01-01T00:00:00.003Z")]).
Proof. cbv zeta. repeat split; vm_compute; reflexivity. Qed.


(** * Further properties of the code *)

(** ** The constructor of the repository *)

(** X1: a second run of the constructor never changes the world that
    the first run left, and it returns when the first run did.  When the
    first write failed after the file was created, the first run throws,
    the second run returns, and the cut-off file stays as it is: the
    constructor does not repair it. *)
Theorem ensureDataFileExists_again (w : World) :
  let w1 := snd (NotesRepository.ensureDataFileExists w) in
  snd (NotesRepository.ensureDataFileExists w1) = w1
  ∧ (fst (NotesRepository.ensureDataFileExists w) = Ok tt ->
     NotesRepository.ensureDataFileExists w1 = (Ok tt, w1))
  ∧ (∀ code remains,
       disk w = Missing -> write_refused w = Some (AfterOpen code remains) ->
       fst (NotesRepository.ensureDataFileExists w) = Err (SystemError code)
       ∧ disk w1 = Text remains
       ∧ NotesRepository.ensureDataFileExists w1 = (Ok tt, w1)).
Proof.
  unfold NotesRepository.ensureDataFileExists, writeFile.
  destruct w as [[| |c] [[code|code remains]|] log]; cbn.
  all: split; [done|split; [by intros|]].
  all: intros code' remains' Hd Hw; by simplify_eq/=.
Qed.

Lemma ensureDataFileExists_again_witness :
  fst (NotesRepository.ensureDataFileExists Sample2.full_disk)
  = Err (SystemError ENOSPC)
  ∧ disk (snd (NotesRepository.ensureDataFileExists Sample2.full_disk))
    = Text (Malformed EmptyString)
  ∧ NotesRepository.ensureDataFileExists
      (snd (NotesRepository.ensureDataFileExists Sample2.full_disk))
    = (Ok tt, snd (NotesRepository.ensureDataFileExists Sample2.full_disk)).
Proof.
  exact (proj2 (proj2 (ensureDataFileExists_again Sample2.full_disk))
           ENOSPC (Malformed EmptyString) eq_refl eq_refl).
Defined.

(** X2: on the first start, with no file and a file system that takes the
    write, the constructor leaves the empty collection: the list operation
    returns the empty array and every lookup by id is a NotFoundException. *)
Theorem first_start_is_empty
    (w : World) (id : string) (now : Z) (patch : gmap string jsval) :
  disk w = Missing -> write_refused w = None ->
  let w' := snd (NotesRepository.ensureDataFileExists w) in
  fst (NotesRepository.ensureDataFileExists w) = Ok tt
  ∧ NotesService.findAll w' = (Ok (JArr []), w')
  ∧ NotesService.findOne id w' = (Err (NotesService.not_found id), w')
  ∧ NotesService.update now id patch w' = (Err (NotesService.not_found id), w')
  ∧ NotesService.remove id w' = (Err (NotesService.not_found id), w').
Proof.
  intros Hd Hw w'.
  assert (NotesRepository.ensureDataFileExists w
          = (Ok tt, mkWorld (Text (Wellformed (JArr []))) None
                      (Wellformed (JArr []) :: written w))) as E.
  { unfold NotesRepository.ensureDataFileExists, writeFile. by rewrite Hd, Hw. }
  assert (holds w' []) as H by (unfold w'; by rewrite E).
  split; [by rewrite E|].
  split; [exact (readNotes_holds w' [] H)|].
  split; [by apply (findOne_absent w' id [])|].
  split; [by apply (update_absent w' id now patch [])|].
  by apply (remove_absent w' id []).
Qed.

Lemma first_start_is_empty_witness :
  disk Sample2.first_start = Missing
  ∧ fst (NotesService.findAll
           (snd (NotesRepository.ensureDataFileExists Sample2.first_start)))
    = Ok (JArr []).
Proof.
  split; [reflexivity|].
  destruct (first_start_is_empty Sample2.first_start "n1" 0 ∅ eq_refl eq_refl)
    as (_ & Hall & _).
  by rewrite Hall.
Defined.

(** ** Writing and reading back *)

(** X3: what [writeNotes] writes, [readNotes] reads back as its JSON
    image: the value itself when it is a JSON value.  The value read is a
    JSON value, and writing it again leaves the content of the file as it
    is. *)
Theorem writeNotes_readNotes (w : World) (v j : jsval) :
  write_refused w = None -> toJSON v = Some j ->
  let w' := snd (NotesRepository.writeNotes v w) in
  fst (NotesRepository.writeNotes v w) = Ok tt
  ∧ NotesRepository.readNotes w' = (Ok j, w')
  ∧ json j
  ∧ (json v -> j = v)
  ∧ disk (snd (NotesRepository.writeNotes j w')) = disk w'.
Proof.
  intros Hw Hj w'.
  assert (NotesRepository.writeNotes v w
          = (Ok tt, mkWorld (Text (Wellformed j)) None (Wellformed j :: written w))) as E.
  { unfold NotesRepository.writeNotes, JSON_stringify. rewrite Hj. cbn.
    unfold writeFile. by rewrite Hw. }
  pose proof (toJSON_json v j Hj) as Hjj.
  unfold w'. rewrite E. cbn [fst snd].
  split; [done|]. split; [done|]. split; [done|].
  split; [intros Hv; unfold json in Hv; congruence|].
  unfold NotesRepository.writeNotes, JSON_stringify. by rewrite Hjj.
Qed.

Lemma writeNotes_readNotes_witness :
  toJSON (JArr [JDate 5; JUndefined]) = Some (JArr [JStr (ISO.toISOString 5); JNull])
  ∧ fst (NotesRepository.readNotes
           (snd (NotesRepository.writeNotes (JArr [JDate 5; JUndefined]) Sample.empty)))
    = Ok (JArr [JStr (ISO.toISOString 5); JNull]).
Proof.
  split; [reflexivity|].
  destruct (writeNotes_readNotes Sample.empty (JArr [JDate 5; JUndefined])
              (JArr [JStr (ISO.toISOString 5); JNull]) eq_refl eq_refl)
    as (_ & Hr & _).
  by rewrite Hr.
Defined.

(** ** A file that holds no array *)

(** X4: when the file holds JSON text of a value that is not an array,
    the list operation returns that value, and [create], [findOne],
    [update] and [remove] throw a TypeError without writing. *)
Theorem not_an_array_TypeError
    (w : World) (v : jsval) (now : Z) (uuid id : string)
    (dto patch : gmap string jsval) :
  disk w = Text (Wellformed v) -> (∀ l, v ≠ JArr l) ->
  NotesService.findAll w = (Ok v, w)
  ∧ NotesService.create now uuid dto w = (Err TypeError, w)
  ∧ NotesService.findOne id w = (Err TypeError, w)
  ∧ NotesService.update now id patch w = (Err TypeError, w)
  ∧ NotesService.remove id w = (Err TypeError, w).
Proof.
  intros Hd Hv.
  assert (NotesRepository.readNotes w = (Ok v, w)) as Hr.
  { unfold NotesRepository.readNotes, mbind, IO_bind, readFile, lift. by rewrite Hd. }
  assert (as_array v = Err TypeError) as Ha.
  { destruct v; try done. by destruct (Hv l). }
  unfold NotesService.findAll, NotesService.create, NotesService.findOne,
    NotesService.update, NotesService.remove, mbind, IO_bind, lift.
  by rewrite Hr, Ha.
Qed.

Lemma not_an_array_TypeError_witness :
  disk Sample2.a_string = Text (Wellformed (JStr "notes"))
  ∧ NotesService.findOne "n1" Sample2.a_string = (Err TypeError, Sample2.a_string).
Proof.
  split; [reflexivity|].
  by apply (not_an_array_TypeError Sample2.a_string (JStr "notes") 0 "u1" "n1" ∅ ∅).
Defined.

(** ** Arrays that hold other values than records *)

Section lookup_in_arrays.
Context (id : string).

Lemma by_id_readable (n : jsval) :
  readable n = true -> NotesService.by_id id n = Ok (has_id id n).
Proof. by destruct n. Qed.

Lemma find_first_readable (l1 l2 : list jsval) (n : jsval) :
  Forall (fun n => readable n = true) l1 ->
  Forall (fun n => has_id id n = false) l1 ->
  has_id id n = true ->
  find (NotesService.by_id id) (l1 ++ n :: l2) = Ok n
  ∧ findIndex (NotesService.by_id id) (l1 ++ n :: l2) = Ok (Z.of_nat (length l1)).
Proof.
  intros Hr Hno Hn. induction Hr as [|m l1 Hm _ IH].
  - assert (readable n = true) as Ho by (by destruct n).
    simpl. by rewrite (by_id_readable n Ho), Hn.
  - apply Forall_cons in Hno as [Hid Hno]. destruct (IH Hno) as [IH1 IH2].
    cbn [app find findIndex]. rewrite (by_id_readable m Hm), Hid, IH1, IH2.
    split; [done|]. cbn [mbind result_bind]. f_equal.
    rewrite length_cons.
    destruct (Z.eqb_spec (Z.of_nat (length l1)) (-1)); lia.
Qed.

Lemma find_null (l1 l2 : list jsval) :
  Forall (fun n => readable n = true) l1 ->
  Forall (fun n => has_id id n = false) l1 ->
  find (NotesService.by_id id) (l1 ++ JNull :: l2) = Err TypeError
  ∧ findIndex (NotesService.by_id id) (l1 ++ JNull :: l2) = Err TypeError.
Proof.
  intros Hr Hno. induction Hr as [|m l1 Hm _ IH]; [done|].
  apply Forall_cons in Hno as [Hid Hno]. destruct (IH Hno) as [IH1 IH2].
  cbn [app find findIndex]. by rewrite (by_id_readable m Hm), Hid, IH1, IH2.
Qed.

End lookup_in_arrays.

(** [findIndex] answers [-1] or an index of the array. *)
Lemma findIndex_range (p : jsval -> result bool) (l : list jsval) (i : Z) :
  findIndex p l = Ok i -> i = -1 ∨ 0 <= i < Z.of_nat (length l).
Proof.
  revert i. induction l as [|n l IH]; intros i; simpl.
  - intros [= <-]. by left.
  - destruct (p n) as [[|]|e]; simpl; try done.
    + intros [= <-]. right. lia.
    + destruct (findIndex p l) as [j|e]; simpl; [|done].
      intros [= <-]. destruct (IH j eq_refl) as [->|Hj]; [by left|].
      right. destruct (Z.eqb_spec j (-1)); lia.
Qed.

(** X5: a [null] element ahead of every record with the id makes
    [findOne], [update] and [remove] throw a TypeError, the property [id]
    of [null] being read; nothing is written. *)
Theorem null_element_TypeError
    (w : World) (l1 l2 : list jsval) (id : string) (now : Z)
    (patch : gmap string jsval) :
  holds w (l1 ++ JNull :: l2) ->
  Forall (fun n => readable n = true) l1 ->
  Forall (fun n => has_id id n = false) l1 ->
  NotesService.findOne id w = (Err TypeError, w)
  ∧ NotesService.update now id patch w = (Err TypeError, w)
  ∧ NotesService.remove id w = (Err TypeError, w).
Proof.
  intros H Hr Hno. destruct (find_null id l1 l2 Hr Hno) as [E1 E2].
  unfold NotesService.findOne, NotesService.update, NotesService.remove,
    mbind, IO_bind, lift.
  rewrite (readNotes_holds _ _ H). cbn [as_array]. by rewrite E1, E2.
Qed.

Lemma null_element_TypeError_witness :
  holds Sample2.with_null ([] ++ JNull :: [Sample.react_hook])
  ∧ NotesService.findOne "n1" Sample2.with_null = (Err TypeError, Sample2.with_null).
Proof.
  split; [reflexivity|].
  by apply (null_element_TypeError Sample2.with_null [] [Sample.react_hook] "n1" 0 ∅).
Defined.

(** X6: the lookup by id passes over the elements that are no records but
    whose [id] can be read (numbers, strings, booleans, arrays) and stops
    at the first record with the id: what follows it in the array, be it
    [null], is not looked at.  [findOne] returns that record and [remove]
    writes the array without it. *)
Theorem lookup_passes_over_other_values
    (w : World) (l1 l2 : list jsval) (n : jsval) (id : string) :
  holds w (l1 ++ n :: l2) ->
  Forall (fun n => readable n = true) l1 ->
  Forall (fun n => has_id id n = false) l1 ->
  has_id id n = true ->
  NotesService.findOne id w = (Ok n, w)
  ∧ NotesService.remove id w = NotesRepository.writeNotes (JArr (l1 ++ l2)) w.
Proof.
  intros H Hr Hno Hn. destruct (find_first_readable id l1 l2 n Hr Hno Hn) as [E1 E2].
  unfold NotesService.findOne, NotesService.remove, mbind, IO_bind, lift, throw,
    mret, IO_ret.
  rewrite (readNotes_holds _ _ H). cbn [as_array]. rewrite E1, E2.
  rewrite (has_id_truthy id n Hn). split; [done|].
  destruct (Z.eqb_spec (Z.of_nat (length l1)) (-1)) as [|_]; [lia|].
  by rewrite Nat2Z.id, delete_middle.
Qed.

Lemma lookup_passes_over_other_values_witness :
  holds Sample2.with_scalars ([JNum 7; JStr "x"] ++ Sample.react_hook :: [JNull])
  ∧ NotesService.findOne "n1" Sample2.with_scalars
    = (Ok Sample.react_hook, Sample2.with_scalars).
Proof.
  split; [reflexivity|].
  apply (lookup_passes_over_other_values Sample2.with_scalars
           [JNum 7; JStr "x"] [JNull] Sample.react_hook "n1" eq_refl);
    [by repeat constructor|by repeat constructor|reflexivity].
Defined.

(** ** Records that share an id *)

(** X7: of several records with the id, the operations see the first
    only: [findOne] returns it, [remove] deletes it alone, and after the
    removal [findOne] returns the next record with the id. *)
Theorem first_of_duplicates
    (w : World) (l1 l2 l3 : list jsval) (n n' : jsval) (id : string) :
  holds w (l1 ++ n :: l2 ++ n' :: l3) -> collection (l1 ++ n :: l2 ++ n' :: l3) ->
  write_refused w = None ->
  Forall (fun n => has_id id n = false) l1 -> has_id id n = true ->
  Forall (fun n => has_id id n = false) l2 -> has_id id n' = true ->
  let w' := saved w (l1 ++ l2 ++ n' :: l3) in
  NotesService.findOne id w = (Ok n, w)
  ∧ NotesService.remove id w = (Ok tt, w')
  ∧ NotesService.findOne id w' = (Ok n', w').
Proof.
  intros H [Hj Hobj] Hw Hno1 Hn Hno2 Hn' w'.
  pose proof Hobj as Hobj0.
  apply Forall_app in Hobj as [Hobj1 [_ [Hobj2 _]%Forall_app]%Forall_cons].
  apply json_array_iff, Forall_app in Hj as [H1 [_ H2]%Forall_cons].
  split; [by apply (findOne_found w id l1 (l2 ++ n' :: l3) n)|]. split.
  - rewrite (remove_found w id l1 (l2 ++ n' :: l3) n H Hobj1 Hno1 Hn).
    apply writeNotes_json; [done|]. apply json_array, Forall_app. done.
  - apply (findOne_found w' id (l1 ++ l2) l3 n'); try done; try by apply Forall_app.
    unfold w', holds, saved. cbn [disk]. by rewrite <- app_assoc.
Qed.

Lemma first_of_duplicates_witness :
  holds Sample2.twins ([] ++ Sample.react_hook :: [Sample.unrelated] ++ Sample2.twin :: [])
  ∧ NotesService.findOne "n1"
      (saved Sample2.twins ([] ++ [Sample.unrelated] ++ Sample2.twin :: []))
    = (Ok Sample2.twin,
       saved Sample2.twins ([] ++ [Sample.unrelated] ++ Sample2.twin :: [])).
Proof.
  split; [reflexivity|].
  apply (first_of_duplicates Sample2.twins [] [Sample.unrelated] []
           Sample.react_hook Sample2.twin "n1" eq_refl).
  - split; [reflexivity|]. by repeat constructor.
  - reflexivity.
  - constructor.
  - reflexivity.
  - by repeat constructor.
  - reflexivity.
Defined.

(** X8: [create] does not look at the ids of the file: when a record with
    the generated id is stored already, the new record is appended all the
    same, and [findOne] on that id returns the older record. *)
Theorem create_with_taken_id
    (w : World) (l1 l2 : list jsval) (n : jsval) (now : Z) (uuid : string)
    (d : CreateNoteDto.t) :
  holds w (l1 ++ n :: l2) -> collection (l1 ++ n :: l2) -> write_refused w = None ->
  Forall (fun n => has_id uuid n = false) l1 -> has_id uuid n = true ->
  let note := Note.make uuid (CreateNoteDto.title d) (CreateNoteDto.content d)
                (default [] (CreateNoteDto.tags d)) in
  let stored := note (JStr (ISO.toISOString now)) (JStr (ISO.toISOString now)) in
  let w' := saved w ((l1 ++ n :: l2) ++ [stored]) in
  NotesService.create now uuid (CreateNoteDto.object d) w
    = (Ok (note (JDate now) (JDate now)), w')
  ∧ has_id uuid stored = true
  ∧ NotesService.findOne uuid w' = (Ok n, w').
Proof.
  intros H [Hj Hobj] Hw Hno Hn note stored w'.
  apply Forall_app in Hobj as [Hobj1 _].
  split; [by apply create_saved|]. split.
  - unfold stored, note, Note.make, has_id.
    rewrite lookup_insert_eq. simpl. by rewrite String.eqb_refl.
  - apply (findOne_found w' uuid l1 (l2 ++ [stored]) n); try done.
    unfold w', holds, saved. cbn [disk]. by rewrite <- app_assoc.
Qed.

Lemma create_with_taken_id_witness :
  holds Sample.two_notes ([] ++ Sample.react_hook :: [Sample.unrelated])
  ∧ fst (NotesService.findOne "n1"
           (snd (NotesService.create 5 "n1" (CreateNoteDto.object Sample.T1)
                   Sample.two_notes)))
    = Ok Sample.react_hook.
Proof.
  split; [reflexivity|].
  destruct (create_with_taken_id Sample.two_notes [] [Sample.unrelated]
              Sample.react_hook 5 "n1" Sample.T1
              eq_refl collection_two_notes eq_refl (Forall_nil_2 _) eq_refl)
    as (Hc & _ & Hf).
  rewrite Hc. cbn [snd]. by rewrite Hf.
Defined.

(** ** How the operations compose *)

(** X9: [create] followed by [remove] of the generated id, when no stored
    record had that id, leaves the file with the content it had. *)
Theorem create_then_remove
    (w : World) (notes : list jsval) (now : Z) (uuid : string) (d : CreateNoteDto.t) :
  holds w notes -> collection notes -> write_refused w = None ->
  Forall (fun n => has_id uuid n = false) notes ->
  let w1 := snd (NotesService.create now uuid (CreateNoteDto.object d) w) in
  fst (NotesService.remove uuid w1) = Ok tt
  ∧ disk (snd (NotesService.remove uuid w1)) = disk w.
Proof.
  intros H [Hj Hobj] Hw Hfresh w1.
  set (stored := Note.make uuid (CreateNoteDto.title d) (CreateNoteDto.content d)
                   (default [] (CreateNoteDto.tags d))
                   (JStr (ISO.toISOString now)) (JStr (ISO.toISOString now))).
  assert (w1 = saved w (notes ++ [stored])) as ->.
  { unfold w1. by rewrite (create_saved w notes now uuid d H Hj Hw). }
  assert (has_id uuid stored = true) as Hs.
  { unfold stored, Note.make, has_id.
    rewrite lookup_insert_eq. simpl. by rewrite String.eqb_refl. }
  rewrite (remove_found _ uuid notes [] stored (holds_saved _ _) Hobj Hfresh Hs).
  rewrite app_nil_r.
  rewrite (writeNotes_json (saved w (notes ++ [stored])) notes eq_refl Hj).
  by rewrite H.
Qed.

Lemma create_then_remove_witness :
  holds Sample.two_notes [Sample.react_hook; Sample.unrelated]
  ∧ disk (snd (NotesService.remove "u1"
                 (snd (NotesService.create 5 "u1" (CreateNoteDto.object Sample.T1)
                         Sample.two_notes))))
    = disk Sample.two_notes.
Proof.
  split; [reflexivity|].
  apply (create_then_remove Sample.two_notes [Sample.react_hook; Sample.unrelated]
           5 "u1" Sample.T1 eq_refl collection_two_notes eq_refl).
  by repeat constructor.
Defined.

(** A patch over title, content and tags leaves the id of a record. *)
Lemma has_id_patched (id : string) (p : UpdateNoteDto.t) (o : gmap string jsval)
    (x : jsval) :
  has_id id (JObj (<["updatedAt" := x]> (UpdateNoteDto.object p ∪ o)))
  = has_id id (JObj o).
Proof.
  unfold has_id. rewrite lookup_insert_ne by done.
  by rewrite lookup_union, (proj1 (UpdateNoteDto_no_id p)), (left_id_L None _).
Qed.

(** X10: after [update] with a patch over title, content and tags,
    [findOne] on the id returns the record as it was written: the JSON
    image of the record that [update] returned. *)
Theorem update_then_findOne
    (w : World) (l1 l2 : list jsval) (o : gmap string jsval)
    (now : Z) (id : string) (p : UpdateNoteDto.t) :
  holds w (l1 ++ JObj o :: l2) -> collection (l1 ++ JObj o :: l2) ->
  write_refused w = None ->
  Forall (fun n => has_id id n = false) l1 -> has_id id (JObj o) = true ->
  let w1 := snd (NotesService.update now id (UpdateNoteDto.object p) w) in
  ∃ updated found,
    fst (NotesService.update now id (UpdateNoteDto.object p) w) = Ok updated
    ∧ NotesService.findOne id w1 = (Ok found, w1)
    ∧ toJSON updated = Some found.
Proof.
  intros H [Hj Hobj] Hw Hno Hid w1.
  apply Forall_app in Hobj as [Hobj1 _].
  set (P := UpdateNoteDto.object p).
  assert (json (JObj (P ∪ o))) as Hm.
  { apply json_union; [apply json_UpdateNoteDto|].
    apply (json_elem _ _ Hj). set_solver. }
  assert (NotesService.update now id P w
          = (Ok (JObj (<["updatedAt" := JDate now]> (P ∪ o))),
             saved w (l1 ++ JObj (<["updatedAt" := JStr (ISO.toISOString now)]> (P ∪ o)) :: l2)))
    as E.
  { rewrite (update_found w id now P o l1 l2 H Hobj1 Hno Hid). cbv zeta.
    by rewrite (writeNotes_ok w _ _ Hw (update_stored now _ o l1 l2 Hj Hm)). }
  set (m1 := <["updatedAt" := JStr (ISO.toISOString now)]> (P ∪ o)) in *.
  assert (has_id id (JObj m1) = true) as Hid1.
  { unfold m1, P. by rewrite has_id_patched. }
  exists (JObj (<["updatedAt" := JDate now]> (P ∪ o))), (JObj m1).
  unfold w1. fold P. rewrite E. cbn [fst snd].
  split; [reflexivity|]. split; [|by apply toJSON_stamp].
  by apply (findOne_found (saved w (l1 ++ JObj m1 :: l2)) id l1 l2 (JObj m1)).
Qed.

Lemma update_then_findOne_witness :
  holds Sample.two_notes ([] ++ JObj (spread Sample.react_hook) :: [Sample.unrelated])
  ∧ ∃ updated found,
      fst (NotesService.update 7 "n1" (UpdateNoteDto.object Sample.retitle)
             Sample.two_notes) = Ok updated
      ∧ NotesService.findOne "n1"
          (snd (NotesService.update 7 "n1" (UpdateNoteDto.object Sample.retitle)
                  Sample.two_notes))
        = (Ok found,
           snd (NotesService.update 7 "n1" (UpdateNoteDto.object Sample.retitle)
                  Sample.two_notes))
      ∧ toJSON updated = Some found.
Proof.
  split; [reflexivity|].
  exact (update_then_findOne Sample.two_notes [] [Sample.unrelated]
           (spread Sample.react_hook) 7 "n1" Sample.retitle
           eq_refl collection_two_notes eq_refl (Forall_nil_2 _) eq_refl).
Defined.

(** The merge of a second patch over a merged and stamped record. *)
Lemma merge_twice (P1 P2 o : gmap string jsval) (x y : jsval) :
  <["updatedAt" := x]> (P2 ∪ <["updatedAt" := y]> (P1 ∪ o))
  = <["updatedAt" := x]> ((P2 ∪ P1) ∪ o).
Proof.
  apply map_eq. intros k. destruct (decide (k = "updatedAt")) as [->|Hk].
  - by rewrite !lookup_insert_eq.
  - rewrite !lookup_insert_ne by done. rewrite !lookup_union.
    rewrite lookup_insert_ne by done. rewrite lookup_union.
    by destruct (P2 !! k), (P1 !! k), (o !! k).
Qed.

(** X11: two updates of a record, one after the other, amount to the one
    update at the later time with both patches merged, the later patch
    winning: the same record is returned and the same content is in the
    file. *)
Theorem update_twice
    (w : World) (l1 l2 : list jsval) (o : gmap string jsval)
    (t1 t2 : Z) (id : string) (p1 p2 : UpdateNoteDto.t) :
  holds w (l1 ++ JObj o :: l2) -> collection (l1 ++ JObj o :: l2) ->
  write_refused w = None ->
  Forall (fun n => has_id id n = false) l1 -> has_id id (JObj o) = true ->
  let P1 := UpdateNoteDto.object p1 in
  let P2 := UpdateNoteDto.object p2 in
  let w1 := snd (NotesService.update t1 id P1 w) in
  fst (NotesService.update t2 id P2 w1) = fst (NotesService.update t2 id (P2 ∪ P1) w)
  ∧ disk (snd (NotesService.update t2 id P2 w1))
    = disk (snd (NotesService.update t2 id (P2 ∪ P1) w)).
Proof.
  intros H [Hj Hobj] Hw Hno Hid P1 P2 w1.
  apply Forall_app in Hobj as [Hobj1 _].
  assert (json (JObj o)) as Ho by (apply (json_elem _ _ Hj); set_solver).
  assert (json (JObj (P1 ∪ o))) as Hm1
    by (apply json_union; [apply json_UpdateNoteDto|done]).
  assert (json (JObj ((P2 ∪ P1) ∪ o))) as Hm
    by (repeat apply json_union; done || apply json_UpdateNoteDto).
  set (m1 := <["updatedAt" := JStr (ISO.toISOString t1)]> (P1 ∪ o)).
  assert (w1 = saved w (l1 ++ JObj m1 :: l2)) as ->.
  { unfold w1. rewrite (update_found w id t1 P1 o l1 l2 H Hobj1 Hno Hid). cbv zeta.
    by rewrite (writeNotes_ok w _ _ Hw (update_stored t1 _ o l1 l2 Hj Hm1)). }
  assert (json (JObj m1)) as Hjm1 by (by apply json_insert).
  assert (has_id id (JObj m1) = true) as Hid1.
  { unfold m1, P1. by rewrite has_id_patched. }
  assert (json (JArr (l1 ++ JObj m1 :: l2))) as Hj1.
  { apply json_array_iff, Forall_app in Hj as [H1 [_ H2]%Forall_cons].
    apply json_array, Forall_app. split; [done|]. by constructor. }
  assert (json (JObj (P2 ∪ m1))) as Hm2
    by (apply json_union; [apply json_UpdateNoteDto|done]).
  rewrite (update_found _ id t2 P2 m1 l1 l2 (holds_saved _ _) Hobj1 Hno Hid1).
  rewrite (update_found w id t2 (P2 ∪ P1) o l1 l2 H Hobj1 Hno Hid). cbv zeta.
  rewrite (writeNotes_ok (saved w (l1 ++ JObj m1 :: l2)) _ _ eq_refl
             (update_stored t2 _ m1 l1 l2 Hj1 Hm2)).
  rewrite (writeNotes_ok w _ _ Hw (update_stored t2 _ o l1 l2 Hj Hm)).
  unfold m1. by rewrite !merge_twice.
Qed.

Lemma update_twice_witness :
  holds Sample.two_notes ([] ++ JObj (spread Sample.react_hook) :: [Sample.unrelated])
  ∧ fst (NotesService.update 9 "n1" (UpdateNoteDto.object Sample2.recontent_Z)
           (snd (NotesService.update 7 "n1" (UpdateNoteDto.object Sample.retitle)
                   Sample.two_notes)))
    = fst (NotesService.update 9 "n1"
             (UpdateNoteDto.object Sample2.recontent_Z
              ∪ UpdateNoteDto.object Sample.retitle) Sample.two_notes).
Proof.
  split; [reflexivity|].
  apply (update_twice Sample.two_notes [] [Sample.unrelated]
           (spread Sample.react_hook) 7 9 "n1" Sample.retitle Sample2.recontent_Z
           eq_refl collection_two_notes eq_refl (Forall_nil_2 _) eq_refl).
Defined.

(** X12: once the only record with the id is removed, the id is unknown:
    [findOne], [update] and a second [remove] are NotFoundExceptions. *)
Theorem remove_then_not_found
    (w : World) (l1 l2 : list jsval) (n : jsval) (id : string) (now : Z)
    (patch : gmap string jsval) :
  holds w (l1 ++ n :: l2) -> collection (l1 ++ n :: l2) ->
  write_refused w = None ->
  Forall (fun n => has_id id n = false) l1 -> has_id id n = true ->
  Forall (fun n => has_id id n = false) l2 ->
  let w1 := snd (NotesService.remove id w) in
  NotesService.findOne id w1 = (Err (NotesService.not_found id), w1)
  ∧ NotesService.update now id patch w1 = (Err (NotesService.not_found id), w1)
  ∧ NotesService.remove id w1 = (Err (NotesService.not_found id), w1).
Proof.
  intros H [Hj Hobj] Hw Hno1 Hn Hno2 w1.
  apply Forall_app in Hobj as [Hobj1 [_ Hobj2]%Forall_cons].
  apply json_array_iff, Forall_app in Hj as [H1 [_ H2]%Forall_cons].
  assert (w1 = saved w (l1 ++ l2)) as ->.
  { unfold w1. rewrite (remove_found w id l1 l2 n H Hobj1 Hno1 Hn).
    rewrite writeNotes_json; [done|done|]. apply json_array, Forall_app. done. }
  assert (Forall (fun n => is_object n = true) (l1 ++ l2)) as Hobj' by (by apply Forall_app).
  assert (Forall (fun n => has_id id n = false) (l1 ++ l2)) as Hno by (by apply Forall_app).
  split; [by apply (findOne_absent _ id (l1 ++ l2))|].
  split; [by apply (update_absent _ id now patch (l1 ++ l2))|].
  by apply (remove_absent _ id (l1 ++ l2)).
Qed.

Lemma remove_then_not_found_witness :
  holds Sample.two_notes ([] ++ Sample.react_hook :: [Sample.unrelated])
  ∧ fst (NotesService.remove "n1" (snd (NotesService.remove "n1" Sample.two_notes)))
    = Err (NotesService.not_found "n1").
Proof.
  split; [reflexivity|].
  destruct (remove_then_not_found Sample.two_notes [] [Sample.unrelated]
              Sample.react_hook "n1" 0 ∅
              eq_refl collection_two_notes eq_refl (Forall_nil_2 _) eq_refl)
    as (_ & _ & Hr); [by repeat constructor|].
  by rewrite Hr.
Defined.

(** ** What [create] takes from the body *)

(** X13: whatever entries the body of [create] carries, the record gets
    [createdAt] and [updatedAt] from the clock and never from the body;
    [tags] is the body's when that is truthy and the empty array
    otherwise; the [id] is the body's when it carries one, the generated
    id otherwise; every other entry of the body goes into the record. *)
Theorem create_body_entries
    (w : World) (notes : list jsval) (now : Z) (uuid : string)
    (dto : gmap string jsval) :
  holds w notes -> write_refused w = None ->
  ∃ created w',
    NotesService.create now uuid dto w = (Ok (JObj created), w')
    ∧ created !! "createdAt" = Some (JDate now)
    ∧ created !! "updatedAt" = Some (JDate now)
    ∧ created !! "tags"
      = Some (let tags := default JUndefined (dto !! "tags") in
              if truthy tags then tags else JArr [])
    ∧ created !! "id" = Some (default (JStr uuid) (dto !! "id"))
    ∧ (∀ k, k ∉ ["id"; "tags"; "createdAt"; "updatedAt"] -> created !! k = dto !! k).
Proof.
  intros H Hw. rewrite (create_run w now uuid dto notes H). cbv zeta.
  destruct (writeNotes_cases w
    (notes ++ [JObj (<["updatedAt" := JDate now]>
                     (<["createdAt" := JDate now]>
                      (<["tags" := if truthy (default JUndefined (dto !! "tags"))
                                   then default JUndefined (dto !! "tags")
                                   else JArr []]>
                       (dto ∪ {["id" := JStr uuid]}))))]))
    as [[w' E]|(code & w' & E)].
  - rewrite E. eexists _, w'. split; [reflexivity|].
    split; [by rewrite lookup_insert_ne, lookup_insert_eq|].
    split; [by rewrite lookup_insert_eq|].
    split; [by do 2 (rewrite lookup_insert_ne by done); rewrite lookup_insert_eq|].
    split.
    + rewrite !lookup_insert_ne by done. rewrite lookup_union, lookup_singleton_eq.
      by destruct (dto !! "id").
    + intros k Hk. rewrite !lookup_insert_ne by set_solver.
      rewrite lookup_union, lookup_singleton_ne by set_solver.
      by destruct (dto !! k).
  - exfalso. revert E. unfold NotesRepository.writeNotes, JSON_stringify. cbn.
    unfold writeFile. by rewrite Hw.
Qed.

Lemma create_body_entries_witness :
  holds Sample.two_notes [Sample.react_hook; Sample.unrelated]
  ∧ ∃ created w',
      NotesService.create 5 "u1" Sample2.eager Sample.two_notes = (Ok (JObj created), w')
      ∧ created !! "createdAt" = Some (JDate 5)
      ∧ created !! "tags" = Some (JArr [])
      ∧ created !! "id" = Some (JStr "mine").
Proof.
  split; [reflexivity|].
  destruct (create_body_entries Sample.two_notes [Sample.react_hook; Sample.unrelated]
              5 "u1" Sample2.eager eq_refl eq_refl)
    as (created & w' & Hc & Hca & _ & Ht & Hi & _).
  exists created, w'. by repeat split.
Defined.

(** ** What the operations do to the file *)

Lemma wrote_once_thrown {A} (e : exn) (w : World) :
  wrote_once (Err e : result A, w) w.
Proof. unfold wrote_once. simpl. destruct e; done || by left. Qed.

Lemma wrote_once_writeNotes (l : list jsval) (w : World) :
  wrote_once (NotesRepository.writeNotes (JArr l) w) w.
Proof.
  unfold NotesRepository.writeNotes, JSON_stringify. cbn.
  unfold writeFile, wrote_once.
  destruct (write_refused w) as [f|]; cbn; [right|]; eauto.
Qed.

Lemma wrote_once_returning {A} (a : A) (l : list jsval) (w : World) :
  wrote_once (match NotesRepository.writeNotes (JArr l) w with
              | (Ok _, w') => (Ok a, w')
              | (Err e, w') => (Err e, w')
              end) w.
Proof.
  unfold NotesRepository.writeNotes, JSON_stringify. cbn.
  unfold writeFile, wrote_once.
  destruct (write_refused w) as [f|]; cbn; [right|]; eauto.
Qed.


(** X15: whatever the elements of the stored array, a [create] that
    returns leaves an array with one element more, an [update] that
    returns an array of the same length, and a [remove] that returns an
    array with one element fewer. *)
Theorem lengths_after_success
    (w : World) (l : list jsval) (now : Z) (uuid id : string)
    (dto patch : gmap string jsval) :
  holds w l ->
  (∀ r, fst (NotesService.create now uuid dto w) = Ok r ->
     ∃ l', holds (snd (NotesService.create now uuid dto w)) l'
           ∧ length l' = S (length l))
  ∧ (∀ r, fst (NotesService.update now id patch w) = Ok r ->
       ∃ l', holds (snd (NotesService.update now id patch w)) l'
             ∧ length l' = length l)
  ∧ (∀ r, fst (NotesService.remove id w) = Ok r ->
       ∃ l', holds (snd (NotesService.remove id w)) l'
             ∧ S (length l') = length l).
Proof.
  intros H.
  unfold NotesService.create, NotesService.update, NotesService.remove,
    mbind, IO_bind, lift, throw, mret, IO_ret.
  rewrite (readNotes_holds w l H). cbn [as_array].
  unfold NotesRepository.writeNotes, JSON_stringify. cbn [toJSON fmap option_fmap option_map].
  unfold writeFile, holds.
  split; [|split].
  - destruct (write_refused w); [done|]. intros r _. eexists. split; [reflexivity|].
    rewrite length_map, length_app. simpl. lia.
  - destruct (findIndex (NotesService.by_id id) l) as [i|e] eqn:Ei; [|done].
    destruct (Z.eqb_spec i (-1)); [done|].
    destruct (write_refused w); [done|]. intros r _. eexists. split; [reflexivity|].
    by rewrite length_map, length_insert.
  - destruct (findIndex (NotesService.by_id id) l) as [i|e] eqn:Ei; [|done].
    destruct (Z.eqb_spec i (-1)); [done|].
    destruct (findIndex_range _ _ _ Ei) as [?|Hi]; [done|].
    destruct (write_refused w); [done|]. intros r _. eexists. split; [reflexivity|].
    rewrite length_map, length_delete by (apply lookup_lt_is_Some; lia).
    lia.
Qed.

Lemma lengths_after_success_witness :
  holds Sample2.with_scalars [JNum 7; JStr "x"; Sample.react_hook; JNull]
  ∧ ∃ l', holds (snd (NotesService.remove "n1" Sample2.with_scalars)) l'
          ∧ S (length l') = 4%nat.
Proof.
  split; [reflexivity|].
  destruct (lengths_after_success Sample2.with_scalars
              [JNum 7; JStr "x"; Sample.react_hook; JNull] 0 "u1" "n1" ∅ ∅ eq_refl)
    as (_ & _ & Hr).
  exact (Hr tt eq_refl).
Defined.

(** X16: a patch entry whose value is [undefined] erases the field: the
    record that [update] returns holds [undefined] for it, and the record
    in the file has no such field any more. *)
Theorem update_undefined_entry_erases
    (w : World) (l1 l2 : list jsval) (o patch : gmap string jsval)
    (now : Z) (id k : string) :
  holds w (l1 ++ JObj o :: l2) -> collection (l1 ++ JObj o :: l2) ->
  write_refused w = None ->
  Forall (fun n => has_id id n = false) l1 -> has_id id (JObj o) = true ->
  patch !! k = Some JUndefined -> k ≠ "updatedAt" ->
  ∃ updated stored,
    NotesService.update now id patch w = (Ok updated, saved w (l1 ++ stored :: l2))
    ∧ field updated k = Some JUndefined
    ∧ field stored k = None.
Proof.
  intros H [Hj Hobj] Hw Hno Hid Hk Hne.
  apply Forall_app in Hobj as [Hobj1 _].
  apply json_array_iff, Forall_app in Hj as [H1 [_ H2]%Forall_cons].
  set (merged := <["updatedAt" := JDate now]> (patch ∪ o)).
  assert (merged !! k = Some JUndefined) as Hm.
  { unfold merged. rewrite lookup_insert_ne by done.
    rewrite lookup_union, Hk. by destruct (o !! k). }
  exists (JObj merged), (JObj (omap toJSON merged)).
  split; [|split; [done|]].
  - rewrite (update_found w id now patch o l1 l2 H Hobj1 Hno Hid). cbv zeta.
    fold merged.
    by rewrite (writeNotes_ok w _ (l1 ++ JObj (omap toJSON merged) :: l2) Hw
                  (toJSON_middle l1 l2 (JObj merged) _ H1 H2 eq_refl)).
  - simpl. by rewrite lookup_omap, Hm.
Qed.

Lemma update_undefined_entry_erases_witness :
  holds Sample.two_notes ([] ++ JObj (spread Sample.react_hook) :: [Sample.unrelated])
  ∧ ∃ updated stored,
      NotesService.update 7 "n1" Sample2.blanking Sample.two_notes
      = (Ok updated, saved Sample.two_notes ([] ++ stored :: [Sample.unrelated]))
      ∧ field updated "content" = Some JUndefined
      ∧ field stored "content" = None.
Proof.
  split; [reflexivity|].
  by apply (update_undefined_entry_erases Sample.two_notes [] [Sample.unrelated]
              (spread Sample.react_hook) Sample2.blanking 7 "n1" "content"
              eq_refl collection_two_notes eq_refl (Forall_nil_2 _) eq_refl).
Defined.

(** ** Ids along a history *)

Lemma count_id_app (id : string) (a b : list jsval) :
  count_id id (a ++ b) = (count_id id a + count_id id b)%nat.
Proof. unfold count_id. by rewrite List.filter_app, length_app. Qed.

Lemma count_id_cons (id : string) (n : jsval) (l : list jsval) :
  count_id id (n :: l) = ((if has_id id n then 1 else 0) + count_id id l)%nat.
Proof. unfold count_id. simpl. by destruct (has_id id n). Qed.

Lemma count_id_absent (id : string) (l : list jsval) :
  count_id id l = O <-> Forall (fun n => has_id id n = false) l.
Proof.
  induction l as [|n l IH]; [done|]. rewrite count_id_cons, Forall_cons.
  destruct (has_id id n); simpl; [|by rewrite IH; intuition].
  split; [lia|]. by intros [? _].
Qed.

(** A record has one id. *)
Lemma has_id_functional (a b : string) (n : jsval) :
  has_id a n = true -> has_id b n = true -> a = b.
Proof.
  destruct n as [| | | | | | |o]; try done. unfold has_id.
  destruct (default JUndefined (o !! "id")); try done. simpl.
  by intros ->%String.eqb_eq ->%String.eqb_eq.
Qed.

(** A collection in which no two records share an id. *)
Lemma serve_keeps_ids (now : Z) (r : request) (w : World) :
  let unique notes := collection notes ∧ ∀ id, (count_id id notes <= 1)%nat in
  fresh r w -> keeps unique w -> keeps unique (serve now r w).
Proof.
  intros unique Hf Hk. pose proof Hk as [Hcut [[raw Hd]|(notes & H & [Hj Hobj] & Hc)]].
  { rewrite (serve_cut_off now r w raw Hd). split; [done|]. left. by exists raw. }
  destruct r as [uuid d| |id|id p|id]; simpl.
  - destruct (write_refused w) as [f|] eqn:Hw.
    + rewrite (create_run w now uuid _ notes H). cbv zeta.
      rewrite (writeNotes_fails w _ f Hw). by apply keeps_interrupted.
    + rewrite (create_saved w notes now uuid d H Hj Hw). cbn [snd].
      apply keeps_saved. split; [split|].
      * apply json_array, Forall_app. split; [by apply json_array_iff|].
        constructor; [by apply json_Note_make|done].
      * apply Forall_app. split; [done|]. by repeat constructor.
      * intros id. rewrite count_id_app, count_id_cons. cbn [count_id List.filter length].
        destruct (has_id id (Note.make _ _ _ _ _ _)) eqn:Hid; [|specialize (Hc id); lia].
        assert (id = uuid) as ->.
        { apply (has_id_functional _ _ _ Hid). unfold Note.make, has_id.
          rewrite lookup_insert_eq. simpl. by rewrite String.eqb_refl. }
        rewrite (Hf notes H). lia.
  - by rewrite findAll_world.
  - by rewrite findOne_world.
  - destruct (first_with_id id notes) as [Habs|(l1 & n & l2 & -> & Hno & Hn)].
    + by rewrite (update_absent w id now _ notes H Hobj Habs).
    + destruct n as [| | | | | | |o]; try done.
      pose proof Hobj as Hobj0. apply Forall_app in Hobj as [Hobj1 [_ Hobj2]%Forall_cons].
      rewrite (update_found w id now _ o l1 l2 H Hobj1 Hno Hn). cbv zeta.
      destruct (write_refused w) as [f|] eqn:Hw.
      * rewrite (writeNotes_fails w _ f Hw). by apply keeps_interrupted.
      * pose proof Hj as Hj0.
        apply json_array_iff, Forall_app in Hj as [H1 [Ho H2]%Forall_cons].
        assert (json (JObj (UpdateNoteDto.object p ∪ o))) as Hm
          by (apply json_union; [apply json_UpdateNoteDto|done]).
        rewrite (writeNotes_ok w _ _ Hw (update_stored now _ o l1 l2 Hj0 Hm)).
        apply keeps_saved. split; [split|].
        -- apply json_array, Forall_app. split; [done|].
           constructor; [by apply json_insert|done].
        -- apply Forall_app. split; [done|]. by constructor.
        -- intros x. specialize (Hc x). revert Hc.
           rewrite !count_id_app, !count_id_cons. by rewrite has_id_patched.
  - destruct (first_with_id id notes) as [Habs|(l1 & n & l2 & -> & Hno & Hn)].
    + by rewrite (remove_absent w id notes H Hobj Habs).
    + pose proof Hobj as Hobj0. apply Forall_app in Hobj as [Hobj1 [_ Hobj2]%Forall_cons].
      rewrite (remove_found w id l1 l2 n H Hobj1 Hno Hn).
      destruct (write_refused w) as [f|] eqn:Hw.
      * rewrite (writeNotes_fails w _ f Hw). by apply keeps_interrupted.
      * apply json_array_iff, Forall_app in Hj as [H1 [_ H2]%Forall_cons].
        assert (json (JArr (l1 ++ l2))) as Hj' by (by apply json_array, Forall_app).
        rewrite (writeNotes_json w (l1 ++ l2) Hw Hj').
        apply keeps_saved. split; [split|].
        -- done.
        -- by apply Forall_app.
        -- intros x. specialize (Hc x). revert Hc.
           rewrite !count_id_app, count_id_cons. lia.
Qed.

Lemma history_invariant (w : World) :
  history w ->
  keeps (fun notes => collection notes ∧ ∀ id, (count_id id notes <= 1)%nat) w.
Proof.
  induction 1 as [w H Hc|now r w _ IH Hf|w refused _ IH Hc].
  - apply (keeps_holds _ w []); [done|done|]. split; [by split|].
    intros id. unfold count_id. simpl. lia.
  - by apply serve_keeps_ids.
  - by apply keeps_refusal.
Qed.

(** X17: the service never compares ids when it writes, yet along the
    histories from the empty collection in which every generated id is new
    to the file, no two records of the collection that the file holds
    share an id.  The file holds a collection unless a write that failed
    after the open has left it cut off. *)
Theorem history_ids_unique (w : World) :
  history w ->
  (∀ notes, holds w notes -> ∀ id, (count_id id notes <= 1)%nat)
  ∧ ((∃ raw, disk w = Text (Malformed raw)) ∨ ∃ notes, holds w notes).
Proof.
  intros Hk%history_invariant.
  destruct (keeps_collection _ w Hk) as [Hall Hd]. split; [|done].
  intros notes H. by destruct (Hall notes H).
Qed.

Lemma holds_functional (w : World) (a b : list jsval) :
  holds w a -> holds w b -> a = b.
Proof. unfold holds. intros Ha Hb. rewrite Ha in Hb. by injection Hb. Qed.

Lemma history_ids_unique_witness :
  holds (serve 9 (Update "u1" Sample.retitle)
           (serve 7 (Create "u2" Sample.T2)
              (serve 5 (Create "u1" Sample.T1) Sample.empty)))
    [Note.make "u1" "Z" "C1" ["a"]
       (JStr (ISO.toISOString 5)) (JStr (ISO.toISOString 9));
     Note.make "u2" "T2" "C2" []
       (JStr (ISO.toISOString 7)) (JStr (ISO.toISOString 7))]
  ∧ ∀ id,
      (count_id id
         [Note.make "u1" "Z" "C1" ["a"]
            (JStr (ISO.toISOString 5)) (JStr (ISO.toISOString 9));
          Note.make "u2" "T2" "C2" []
            (JStr (ISO.toISOString 7)) (JStr (ISO.toISOString 7))] <= 1)%nat.
Proof.
  assert (holds (serve 9 (Update "u1" Sample.retitle)
                   (serve 7 (Create "u2" Sample.T2)
                      (serve 5 (Create "u1" Sample.T1) Sample.empty)))
            [Note.make "u1" "Z" "C1" ["a"]
               (JStr (ISO.toISOString 5)) (JStr (ISO.toISOString 9));
             Note.make "u2" "T2" "C2" []
               (JStr (ISO.toISOString 7)) (JStr (ISO.toISOString 7))]) as H
    by (vm_compute; reflexivity).
  split; [exact H|].
  refine (proj1 (history_ids_unique _ _) _ H).
  apply history_serve; [|exact I]. apply history_serve.
  - apply history_serve.
    + by apply history_empty.
    + intros notes Hh.
      by rewrite <- (holds_functional Sample.empty [] notes eq_refl Hh).
  - intros notes Hh.
    assert (holds (serve 5 (Create "u1" Sample.T1) Sample.empty)
              [Note.make "u1" "T1" "C1" ["a"]
                 (JStr (ISO.toISOString 5)) (JStr (ISO.toISOString 5))]) as H1
      by (vm_compute; reflexivity).
    rewrite <- (holds_functional _ _ notes H1 Hh). vm_compute. reflexivity.
Defined.

(** ** What the lookups and the stamp guarantee on any array *)

Lemma find_sound (id : string) (l : list jsval) (n : jsval) :
  find (NotesService.by_id id) l = Ok n ->
  n = JUndefined ∨ (n ∈ l ∧ has_id id n = true).
Proof.
  induction l as [|m l IH]; simpl.
  - intros [= <-]. by left.
  - destruct (NotesService.by_id id m) as [[|]|e] eqn:Em; simpl; try done.
    + intros [= <-]. right. split; [by left|].
      destruct m; try done. simpl in Em. by injection Em.
    + intros [Hn|[Hn Hid]]%IH; [by left|]. right. split; [by right|done].
Qed.

(** X18: whatever the elements of the stored array, a record that
    [findOne] returns is an element of the array and has the id asked
    for. *)
Theorem findOne_sound (w : World) (l : list jsval) (id : string) (n : jsval) :
  holds w l -> fst (NotesService.findOne id w) = Ok n ->
  n ∈ l ∧ has_id id n = true.
Proof.
  intros H. unfold NotesService.findOne, mbind, IO_bind, lift, throw, mret, IO_ret.
  rewrite (readNotes_holds w l H). cbn [as_array].
  destruct (find (NotesService.by_id id) l) as [m|e] eqn:Ef; [|done].
  destruct (find_sound id l m Ef) as [->|Hm]; [done|].
  destruct (negb (truthy m)); [done|]. by intros [= <-].
Qed.

Lemma findOne_sound_witness :
  holds Sample2.with_scalars [JNum 7; JStr "x"; Sample.react_hook; JNull]
  ∧ fst (NotesService.findOne "n1" Sample2.with_scalars) = Ok Sample.react_hook
  ∧ Sample.react_hook ∈ [JNum 7; JStr "x"; Sample.react_hook; JNull]
  ∧ has_id "n1" Sample.react_hook = true.
Proof.
  split; [reflexivity|]. split; [reflexivity|].
  apply (findOne_sound Sample2.with_scalars
           [JNum 7; JStr "x"; Sample.react_hook; JNull] "n1" Sample.react_hook
           eq_refl eq_refl).
Defined.

(** X19: a patch cannot set [updatedAt]: whatever entries it carries, the
    record that [update] returns has the Date of the clock for
    [updatedAt], and the record in the file its ISO string. *)
Theorem update_stamp_wins
    (w : World) (l1 l2 : list jsval) (o patch : gmap string jsval)
    (now : Z) (id : string) :
  holds w (l1 ++ JObj o :: l2) -> collection (l1 ++ JObj o :: l2) ->
  write_refused w = None ->
  Forall (fun n => has_id id n = false) l1 -> has_id id (JObj o) = true ->
  ∃ updated stored,
    NotesService.update now id patch w = (Ok updated, saved w (l1 ++ stored :: l2))
    ∧ field updated "updatedAt" = Some (JDate now)
    ∧ field stored "updatedAt" = Some (JStr (ISO.toISOString now)).
Proof.
  intros H [Hj Hobj] Hw Hno Hid.
  apply Forall_app in Hobj as [Hobj1 _].
  apply json_array_iff, Forall_app in Hj as [H1 [_ H2]%Forall_cons].
  set (merged := <["updatedAt" := JDate now]> (patch ∪ o)).
  exists (JObj merged), (JObj (omap toJSON merged)).
  split; [|split].
  - rewrite (update_found w id now patch o l1 l2 H Hobj1 Hno Hid). cbv zeta.
    fold merged.
    by rewrite (writeNotes_ok w _ (l1 ++ JObj (omap toJSON merged) :: l2) Hw
                  (toJSON_middle l1 l2 (JObj merged) _ H1 H2 eq_refl)).
  - apply lookup_insert_eq.
  - simpl. unfold merged. by rewrite lookup_omap, lookup_insert_eq.
Qed.

Lemma update_stamp_wins_witness :
  holds Sample.two_notes ([] ++ JObj (spread Sample.react_hook) :: [Sample.unrelated])
  ∧ ∃ updated stored,
      NotesService.update 7 "n1" {[ "updatedAt" := JStr "never" ]} Sample.two_notes
      = (Ok updated, saved Sample.two_notes ([] ++ stored :: [Sample.unrelated]))
      ∧ field updated "updatedAt" = Some (JDate 7)
      ∧ field stored "updatedAt" = Some (JStr (ISO.toISOString 7)).
Proof.
  split; [reflexivity|].
  exact (update_stamp_wins Sample.two_notes [] [Sample.unrelated]
           (spread Sample.react_hook) {[ "updatedAt" := JStr "never" ]} 7 "n1"
           eq_refl collection_two_notes eq_refl (Forall_nil_2 _) eq_refl).
Defined.
